(** * train.py: early stopping and the repeated-restart training loop

    A shallow embedding of [EarlyStopping] and [Trainer] from [train.py].

    - Python floats are IEEE 754 binary64 values ([spec_float] with
      [prec = 53], [emax = 1024]); comparisons are the IEEE ones, so every
      comparison with NaN is false.
    - Python ints ([patience], [counter], [epochs], [niter], [epoch]) are [Z].
    - The deep-learning framework (modules, optimizers, tensors) is the
      interface [Torch]; the code under verification only calls it.
    - A Python exception is the result [Raise]; the object mutated before the
      exception keeps its mutations, so every operation returns the new
      state next to its result.
    - [print] and [tqdm] only write to the terminal and are left out. *)

From Stdlib Require Import ZArith List Bool Lia String.
From Stdlib Require Import Floats.SpecFloat.
Import ListNotations.

Local Open Scope Z_scope.

(** ** Python floats *)

Module PyFloat.

Definition float := spec_float.

Definition prec : Z := 53.
Definition emax : Z := 1024.

(** [float('inf')] *)
Definition inf : float := S754_infinity false.
Definition nan : float := S754_nan.
(** The int [0] that [best_val_acc] starts from is only ever compared with
    floats and compares like [0.0]. *)
Definition zero : float := S754_zero false.

(** [float(n)] for a Python int [n] *)
Definition of_Z (n : Z) : float := binary_normalize prec emax n 0 false.

Definition one : float := of_Z 1.
Definition half : float := SFdiv prec emax one (of_Z 2).
Definition quarter : float := SFdiv prec emax one (of_Z 4).

Definition add : float -> float -> float := SFadd prec emax.
Definition sub : float -> float -> float := SFsub prec emax.
Definition mul : float -> float -> float := SFmul prec emax.
Definition div : float -> float -> float := SFdiv prec emax.
Definition sqrt : float -> float := SFsqrt prec emax.

(** [a < b], [a <= b], [a > b], [a >= b] *)
Definition lt (a b : float) : bool := SFltb a b.
Definition le (a b : float) : bool := SFleb a b.
Definition gt (a b : float) : bool := SFltb b a.
Definition ge (a b : float) : bool := SFleb b a.

Definition is_nan (a : float) : bool :=
  match a with S754_nan => true | _ => false end.

(** The builtin [min(a, b)]: the first argument unless the second is
    strictly smaller. *)
Definition pymin (a b : float) : float := if lt b a then b else a.

(** The builtin [max(a, b)]: the first argument unless the second is
    strictly greater. *)
Definition pymax (a b : float) : float := if gt b a then b else a.

End PyFloat.

Import PyFloat.

(** ** numpy's [mean] and [std] on a list of floats

    [mean] is the sum over the length and [std] the square root of the mean
    of the squared deviations from the mean (numpy's default, [ddof = 0]).
    The sum of a float array is numpy's pairwise summation: fewer than 8
    elements are added left to right; up to 128 elements go into 8 running
    sums that are added as a tree, the elements after the last full block
    of 8 being added one by one; a longer array is cut in two near its
    middle, at a multiple of 8. The reduction starts from the identity
    [0.0]. *)

Module Numpy.

(** [((r0 + r1) + (r2 + r3)) + ((r4 + r5) + (r6 + r7))] *)
Definition tree8 (r : list float) : float :=
  match r with
  | [r0; r1; r2; r3; r4; r5; r6; r7] =>
      add (add (add r0 r1) (add r2 r3)) (add (add r4 r5) (add r6 r7))
  | _ => nan
  end.

(** [r[j] += a[i + j]] for the next [blocks] blocks of 8 elements *)
Fixpoint add_blocks (r xs : list float) (blocks : nat)
  : list float * list float :=
  match blocks with
  | O => (r, xs)
  | S blocks' =>
      add_blocks (map (fun p => add (fst p) (snd p)) (combine r (firstn 8 xs)))
                 (skipn 8 xs) blocks'
  end.

(** the sum of 8 to 128 elements *)
Definition block_sum (xs : list float) : float :=
  let '(r, rest) :=
    add_blocks (firstn 8 xs) (skipn 8 xs) (List.length xs / 8 - 1) in
  fold_left add rest (tree8 r).

(** [fuel] bounds the depth of the halving; the length of the list is
    always enough, see [pairwise_sum_fuel]. *)
Fixpoint pairwise_sum (fuel : nat) (xs : list float) : float :=
  let n := List.length xs in
  if (n <? 8)%nat then fold_left add xs zero
  else if (n <=? 128)%nat then block_sum xs
  else
    match fuel with
    | O => nan
    | S fuel' =>
        let n2 := (n / 2 - (n / 2) mod 8)%nat in
        add (pairwise_sum fuel' (firstn n2 xs))
            (pairwise_sum fuel' (skipn n2 xs))
    end.

Definition sum (xs : list float) : float :=
  add zero (pairwise_sum (List.length xs) xs).

Definition mean (xs : list float) : float :=
  div (sum xs) (of_Z (Z.of_nat (List.length xs))).

(** The variance: the mean of the squared deviations from the mean. *)
Definition var (xs : list float) : float :=
  let mu := mean xs in
  mean (map (fun x => mul (sub x mu) (sub x mu)) xs).

Definition std (xs : list float) : float := sqrt (var xs).

End Numpy.

(** ** Exceptions and results *)

Inductive exn : Type :=
| AssertionError (msg : string)
| AttributeError
| TypeError
| ValueError
| ZeroDivisionError.

Inductive result (A : Type) : Type :=
| Ok (a : A)
| Raise (e : exn).

Arguments Ok {A} a.
Arguments Raise {A} e.

(** ** The framework interface *)

Inductive Split : Type := TrainMask | ValMask | TestMask.

Class Torch : Type := {
  (** a module: its parameters and buffers, its train/eval flag, and the
      random generator its initialisation and dropout draw from *)
  Model : Type;
  Optimizer : Type;
  Data : Type;
  (** the value of [deepcopy(model.state_dict())]: a snapshot of the
      parameters that shares nothing with the model, so that training on
      does not change it *)
  StateDict : Type;
  (** the tensor [model(data)] *)
  Output : Type;
  model_state_dict : Model -> StateDict;
  (** [model.load_state_dict(sd)] for a state dict [sd]. The method wants a
      mapping: on [None] it raises ([TypeError]; [AttributeError] in older
      releases), which [EarlyStopping.check] has to reckon with. *)
  model_load_state_dict : StateDict -> Model -> Model;
  (** [Adam(model.parameters(), lr=lr, weight_decay=weight_decay)]. The
      optimizer checks its arguments and raises [ValueError] on a learning
      rate that is not [>= 0]; it may refuse other arguments too (a weight
      decay below 0 in recent releases, a module without parameters). *)
  Adam : Model -> float -> float -> result Optimizer;
  Adam_learning_rate : forall m lr weight_decay,
    le zero lr = false -> Adam m lr weight_decay = Raise ValueError;
  (** [model.to(device)] and [data.to(device)] *)
  model_to_device : Model -> Model;
  data_to_device : Data -> Data;
  reset_parameters : Model -> Model;
  (** the body of [Trainer.train]: forward pass in training mode, loss on
      the training mask, backward pass and one optimizer step *)
  train_step : Model -> Optimizer -> Data -> Model * Optimizer;
  (** [model.eval()] *)
  model_eval : Model -> Model;
  (** [model(data)] under [torch.no_grad()] *)
  forward : Model -> Data -> Output;
  (** [F.nll_loss(output[mask], data.labels[mask]).item()] *)
  nll_loss : Output -> Data -> Split -> float;
  (** [pred.eq(data.labels[mask]).sum().item()] *)
  n_correct : Output -> Data -> Split -> Z;
  (** [mask.sum().item()], the number of nodes in the mask; 0 for an empty
      mask *)
  mask_sum : Data -> Split -> Z
}.

(** The dict returned by [Trainer.evaluate]. *)
Record Evals : Type := mkEvals {
  train_loss : float;
  train_acc : float;
  val_loss : float;
  val_acc : float;
  test_loss : float;
  test_acc : float
}.

(** ** class EarlyStopping *)

Module EarlyStopping.
Section WithTorch.
Context {T : Torch}.

Record t : Type := mk {
  patience : Z;
  use_loss : bool;
  use_acc : bool;
  save_model : bool;
  verbose : bool;
  counter : Z;
  best_val_loss : float;
  best_val_acc : float;
  state_dict : option StateDict
}.

Definition set_counter (c : Z) (self : t) : t :=
  mk (patience self) (use_loss self) (use_acc self) (save_model self)
     (verbose self) c (best_val_loss self) (best_val_acc self)
     (state_dict self).

Definition set_best_val_loss (x : float) (self : t) : t :=
  mk (patience self) (use_loss self) (use_acc self) (save_model self)
     (verbose self) (counter self) x (best_val_acc self) (state_dict self).

Definition set_best_val_acc (x : float) (self : t) : t :=
  mk (patience self) (use_loss self) (use_acc self) (save_model self)
     (verbose self) (counter self) (best_val_loss self) x (state_dict self).

Definition set_state_dict (sd : option StateDict) (self : t) : t :=
  mk (patience self) (use_loss self) (use_acc self) (save_model self)
     (verbose self) (counter self) (best_val_loss self) (best_val_acc self)
     sd.

(** [__init__] *)
Definition init (patience : Z) (verbose use_loss use_acc save_model : bool)
  : result t :=
  if use_loss || use_acc then
    Ok (mk patience use_loss use_acc save_model verbose 0 inf zero None)
  else Raise (AssertionError "use loss or (and) acc").

Definition reset (self : t) : t :=
  set_state_dict None
    (set_best_val_acc zero (set_best_val_loss inf (set_counter 0 self))).

(** [self.state_dict = deepcopy(model.state_dict())] when [save_model] *)
Definition save (model : Model) (self : t) : t :=
  if save_model self
  then set_state_dict (Some (model_state_dict model)) self
  else self.

(** Lines 31 to 57 of [check]: the bookkeeping on the new evaluation. *)
Definition update (self : t) (evals : Evals) (model : Model) : t :=
  if use_loss self && use_acc self then
    if le (val_loss evals) (best_val_loss self)
       || ge (val_acc evals) (best_val_acc self)
    then
      let self1 :=
        if le (val_loss evals) (best_val_loss self)
           && ge (val_acc evals) (best_val_acc self)
        then save model self else self in
      let self2 :=
        set_best_val_loss (pymin (best_val_loss self1) (val_loss evals))
          self1 in
      let self3 :=
        set_best_val_acc (pymax (best_val_acc self2) (val_acc evals))
          self2 in
      set_counter 0 self3
    else set_counter (counter self + 1) self
  else if use_loss self then
    if lt (val_loss evals) (best_val_loss self) then
      save model (set_counter 0 (set_best_val_loss (val_loss evals) self))
    else set_counter (counter self + 1) self
  else if use_acc self then
    if gt (val_acc evals) (best_val_acc self) then
      save model (set_counter 0 (set_best_val_acc (val_acc evals) self))
    else set_counter (counter self + 1) self
  else self.

(** Lines 58 to 65 of [check]: the stop test and the restore.
    [self.state_dict] is still [None] when nothing was saved since
    construction or [reset], and [model.load_state_dict(None)] raises. *)
Definition stop_or_go (self : t) (model : Model) : result bool * Model :=
  if patience self <=? counter self then
    if save_model self then
      match state_dict self with
      | Some sd => (Ok true, model_load_state_dict sd model)
      | None => (Raise TypeError, model)
      end
    else (Ok true, model)
  else (Ok false, model).

(** [check(evals, model, epoch)]: the result, [self] and the model after
    the call. *)
Definition check (self : t) (evals : Evals) (model : Model) (epoch : Z)
  : result bool * t * Model :=
  let self' := update self evals model in
  let '(r, model') := stop_or_go self' model in
  (r, self', model').

(** The object after a sequence of [check] calls, each with its
    evaluation, the model it is given and the epoch number. A call that
    raises still leaves its bookkeeping behind. *)
Definition checks (self : t) (calls : list (Evals * Model * Z)) : t :=
  fold_left
    (fun s c => let '(ev, m, epoch) := c in snd (fst (check s ev m epoch)))
    calls self.

End WithTorch.
End EarlyStopping.

(** ** class Trainer *)

Module Trainer.
Section WithTorch.
Context {T : Torch}.

Record t : Type := mk {
  model : Model;
  optimizer : Optimizer;
  data : Data;
  lr : float;
  weight_decay : float;
  epochs : Z;
  verbose : bool;
  niter : Z;
  early_stopping : bool;
  (** the attribute exists only when [early_stopping] was given true *)
  stop_checker : option EarlyStopping.t
}.

Definition set_model (m : Model) (self : t) : t :=
  mk m (optimizer self) (data self) (lr self) (weight_decay self)
     (epochs self) (verbose self) (niter self) (early_stopping self)
     (stop_checker self).

Definition set_optimizer (o : Optimizer) (self : t) : t :=
  mk (model self) o (data self) (lr self) (weight_decay self)
     (epochs self) (verbose self) (niter self) (early_stopping self)
     (stop_checker self).

Definition set_stop_checker (sc : option EarlyStopping.t) (self : t) : t :=
  mk (model self) (optimizer self) (data self) (lr self) (weight_decay self)
     (epochs self) (verbose self) (niter self) (early_stopping self) sc.

(** [__init__] *)
Definition init (model : Model) (data : Data) (lr weight_decay : float)
    (epochs niter : Z) (early_stopping : bool) (patience : Z)
    (use_loss use_acc save_model verbose : bool) : result t :=
  match Adam model lr weight_decay with
  | Raise e => Raise e
  | Ok optimizer =>
      if early_stopping then
        match EarlyStopping.init patience verbose use_loss use_acc save_model
        with
        | Ok sc =>
            Ok (mk model optimizer (data_to_device data) lr weight_decay
                  epochs verbose niter early_stopping (Some sc))
        | Raise e => Raise e
        end
      else
        Ok (mk model optimizer (data_to_device data) lr weight_decay epochs
              verbose niter early_stopping None)
  end.

(** What a method call leaves behind for an observer: the calls to
    [reset] and [train] and the evaluations that [evaluate] returned, in
    the order they are made. A call of [evaluate] that raises leaves no
    event. *)
Inductive event : Type :=
| Reset
| Train
| Evaluate (evals : Evals).

Record machine : Type := mkMachine {
  self : t;
  trace : list event
}.

(** Methods are state transformers that may raise. *)
Definition M (A : Type) : Type := machine -> result A * machine.

Definition ret {A} (a : A) : M A := fun s => (Ok a, s).

Definition bind {A B} (c : M A) (k : A -> M B) : M B :=
  fun s =>
    match c s with
    | (Ok a, s') => k a s'
    | (Raise e, s') => (Raise e, s')
    end.

Definition raise {A} (e : exn) : M A := fun s => (Raise e, s).

Definition get : M t := fun s => (Ok (self s), s).

Definition modify (f : t -> t) : M unit :=
  fun s => (Ok tt, mkMachine (f (self s)) (trace s)).

Definition emit (e : event) : M unit :=
  fun s => (Ok tt, mkMachine (self s) (trace s ++ [e])).

Local Notation "x <- c ;; k" := (bind c (fun x => k))
  (at level 61, c at next level, right associativity).
Local Notation "c ;; k" := (bind c (fun _ => k))
  (at level 61, right associativity).

Definition train : M unit :=
  emit Train ;;
  s <- get ;;
  let '(model', optimizer') := train_step (model s) (optimizer s) (data s) in
  modify (set_model model') ;;
  modify (set_optimizer optimizer').

(** [acc = correct / total], the true division of two ints, which raises
    on a zero divisor. Both counts are at most the number of nodes, far
    below 2^53, where the conversions to float are exact. *)
Definition accuracy (output : Output) (d : Data) (key : Split)
  : result float :=
  if mask_sum d key =? 0 then Raise ZeroDivisionError
  else Ok (div (of_Z (n_correct output d key)) (of_Z (mask_sum d key))).

(** The loop over ['train'], ['val'], ['test'] that fills the dict; it
    stops at the first mask that is empty. *)
Definition outputs_of (output : Output) (d : Data) : result Evals :=
  match accuracy output d TrainMask with
  | Raise e => Raise e
  | Ok acc_train =>
      match accuracy output d ValMask with
      | Raise e => Raise e
      | Ok acc_val =>
          match accuracy output d TestMask with
          | Raise e => Raise e
          | Ok acc_test =>
              Ok (mkEvals (nll_loss output d TrainMask) acc_train
                          (nll_loss output d ValMask) acc_val
                          (nll_loss output d TestMask) acc_test)
          end
      end
  end.

Definition evaluate : M Evals :=
  s <- get ;;
  let model' := model_eval (model s) in
  modify (set_model model') ;;
  match outputs_of (forward model' (data s)) (data s) with
  | Ok outputs => emit (Evaluate outputs) ;; ret outputs
  | Raise e => raise e
  end.

Definition reset : M unit :=
  emit Reset ;;
  s <- get ;;
  match Adam (model s) (lr s) (weight_decay s) with
  | Raise e => raise e
  | Ok optimizer' =>
      modify (set_optimizer optimizer') ;;
      modify (set_model (reset_parameters (model_to_device (model s)))) ;;
      if early_stopping s then
        match stop_checker s with
        | Some sc => modify (set_stop_checker (Some (EarlyStopping.reset sc)))
        | None => raise AttributeError
        end
      else ret tt
  end.

(** [self.stop_checker.check(evals, self.model, epoch)] *)
Definition stop_check (evals : Evals) (epoch : Z) : M bool :=
  s <- get ;;
  match stop_checker s with
  | Some sc =>
      let '(r, sc', model') := EarlyStopping.check sc evals (model s) epoch in
      modify (set_stop_checker (Some sc')) ;;
      modify (set_model model') ;;
      match r with
      | Ok stop => ret stop
      | Raise e => raise e
      end
  | None => raise AttributeError
  end.

(** [range(lo, hi)] *)
Definition range (lo hi : Z) : list Z :=
  map (fun i => lo + Z.of_nat i) (seq 0 (Z.to_nat (hi - lo))).

(** The loop [for epoch in range(1, self.epochs + 1)] over the epochs that
    are left; leaving the recursion is the [break]. *)
Fixpoint epoch_loop (todo : list Z) : M unit :=
  match todo with
  | [] => ret tt
  | epoch :: todo' =>
      train ;;
      evals <- evaluate ;;
      s <- get ;;
      if early_stopping s then
        stop <- stop_check evals epoch ;;
        if (stop : bool) then ret tt else epoch_loop todo'
      else epoch_loop todo'
  end.

(** One pass of the loop [for _ in tqdm(range(self.niter))]: the final
    evaluation of the restart. *)
Definition restart : M Evals :=
  reset ;;
  s <- get ;;
  epoch_loop (range 1 (epochs s + 1)) ;;
  evaluate.

Fixpoint restart_loop (todo : list Z) (val_acc_list test_acc_list : list float)
  : M (list float * list float) :=
  match todo with
  | [] => ret (val_acc_list, test_acc_list)
  | _ :: todo' =>
      evals <- restart ;;
      restart_loop todo' (val_acc_list ++ [val_acc evals])
                   (test_acc_list ++ [test_acc evals])
  end.

(** The dict that [run] returns. *)
Record Stats : Type := mkStats {
  stats_val_acc : float;
  stats_test_acc : float;
  stats_test_acc_std : float
}.

Definition run : M Stats :=
  s <- get ;;
  lists <- restart_loop (range 0 (niter s)) [] [] ;;
  ret (mkStats (Numpy.mean (fst lists)) (Numpy.mean (snd lists))
               (Numpy.std (snd lists))).

End WithTorch.
End Trainer.

(** ** Reading a trace

    A restart is the stretch of the trace from one [Reset] up to the next;
    its final evaluation is the last [Evaluate] in it. *)

Module Trace.
Section WithTorch.
Context {T : Torch}.
Import Trainer.

Definition is_reset (e : event) : bool :=
  match e with Reset => true | _ => false end.

Definition is_train (e : event) : bool :=
  match e with Train => true | _ => false end.

(** the number of restarts begun *)
Definition restarts (tr : list event) : nat :=
  List.length (filter is_reset tr).

Definition close (last : option Evals) : list Evals :=
  match last with Some e => [e] | None => [] end.

(** [last] is the latest evaluation of the restart being read *)
Fixpoint finals_from (last : option Evals) (tr : list event) : list Evals :=
  match tr with
  | [] => close last
  | Reset :: tr' => close last ++ finals_from None tr'
  | Train :: tr' => finals_from last tr'
  | Evaluate e :: tr' => finals_from (Some e) tr'
  end.

(** the final evaluation of every restart, oldest first *)
Definition finals (tr : list event) : list Evals := finals_from None tr.

Definition close_count (n : option nat) : list nat :=
  match n with Some k => [k] | None => [] end.

(** [n] is the number of [train] calls of the restart being read; the
    reading starts before the first restart *)
Fixpoint trains_from (n : option nat) (tr : list event) : list nat :=
  match tr with
  | [] => close_count n
  | Reset :: tr' => close_count n ++ trains_from (Some 0%nat) tr'
  | Train :: tr' => trains_from (option_map S n) tr'
  | Evaluate _ :: tr' => trains_from n tr'
  end.

(** what a restart leaves last on the trace: its final evaluation, unless
    it raised before *)
Definition ending (r : result Evals) : list event :=
  match r with Ok f => [Evaluate f] | Raise _ => [] end.

(** the number of [train] calls of every restart, oldest first *)
Definition trains (tr : list event) : list nat := trains_from None tr.

End WithTorch.
End Trace.

(** ** Notions used in the statements *)

Module Spec.
Section WithTorch.
Context {T : Torch}.
Import EarlyStopping.

(** The evaluations of a sequence of [check] calls. *)
Definition evals_of (calls : list (Evals * Model * Z)) : list Evals :=
  map (fun c => fst (fst c)) calls.

(** An evaluation improves on the best one when it resets the counter:
    one of the two comparisons in the mode with both criteria, a strictly
    better loss or accuracy in the modes with one. *)
Definition improves (self : t) (evals : Evals) : bool :=
  if use_loss self && use_acc self then
    le (val_loss evals) (best_val_loss self)
    || ge (val_acc evals) (best_val_acc self)
  else if use_loss self then lt (val_loss evals) (best_val_loss self)
  else gt (val_acc evals) (best_val_acc self).

(** The comparison that makes a [check] call save a checkpoint (when
    [save_model] is set), for each of the three modes. *)
Definition is_best (self : t) (evals : Evals) : bool :=
  if use_loss self && use_acc self then
    le (val_loss evals) (best_val_loss self)
    && ge (val_acc evals) (best_val_acc self)
  else if use_loss self then lt (val_loss evals) (best_val_loss self)
  else if use_acc self then gt (val_acc evals) (best_val_acc self)
  else false.

(** Two objects with the same configuration. *)
Definition same_config (a b : t) : Prop :=
  patience a = patience b /\ use_loss a = use_loss b /\
  use_acc a = use_acc b /\ save_model a = save_model b /\
  verbose a = verbose b.

(** The second trainer has the configuration of the first: same dataset,
    learning rate, weight decay, epochs, number of restarts and flags, and
    a stop checker configured alike. *)
Definition keeps (a b : Trainer.t) : Prop :=
  Trainer.data b = Trainer.data a
  /\ Trainer.lr b = Trainer.lr a
  /\ Trainer.weight_decay b = Trainer.weight_decay a
  /\ Trainer.epochs b = Trainer.epochs a
  /\ Trainer.verbose b = Trainer.verbose a
  /\ Trainer.niter b = Trainer.niter a
  /\ Trainer.early_stopping b = Trainer.early_stopping a
  /\ match Trainer.stop_checker a, Trainer.stop_checker b with
     | None, None => True
     | Some x, Some y => same_config y x
     | _, _ => False
     end.

(** The trainer that [Trainer.reset] leaves, whether or not it raises. *)
Definition after_reset (a : Trainer.t) : Trainer.t :=
  match Adam (Trainer.model a) (Trainer.lr a) (Trainer.weight_decay a) with
  | Raise _ => a
  | Ok optimizer' =>
      let a1 :=
        Trainer.set_model
          (reset_parameters (model_to_device (Trainer.model a)))
          (Trainer.set_optimizer optimizer' a) in
      if Trainer.early_stopping a then
        match Trainer.stop_checker a with
        | Some sc =>
            Trainer.set_stop_checker (Some (EarlyStopping.reset sc)) a1
        | None => a1
        end
      else a1
  end.

(** None of the three masks of the dataset is empty. *)
Definition masks_not_empty (d : Data) : Prop :=
  forall key, mask_sum d key <> 0.

(** The optimizer accepts the learning rate and the weight decay of the
    trainer, whatever the state of the model. *)
Definition adam_accepts (a : Trainer.t) : Prop :=
  forall m,
    exists o, Adam m (Trainer.lr a) (Trainer.weight_decay a) = Ok o.

(** The three ways a method of the trainer can come to raise [e]: a
    [check] call restores a checkpoint that was never saved, an evaluation
    divides by the size of an empty mask, the optimizer refuses the
    hyperparameters. *)
Definition failure_of (a : Trainer.t) (e : exn) : Prop :=
  (e = TypeError
   /\ Trainer.early_stopping a = true
   /\ exists sc, Trainer.stop_checker a = Some sc /\ save_model sc = true)
  \/ (e = ZeroDivisionError
      /\ exists key, mask_sum (Trainer.data a) key = 0)
  \/ (exists m, Adam m (Trainer.lr a) (Trainer.weight_decay a) = Raise e).

(** A trainer whose evaluations and optimizers cannot fail. *)
Definition usable (a : Trainer.t) : Prop :=
  masks_not_empty (Trainer.data a) /\ adam_accepts a.

(** A trainer built by [Trainer.__init__] has a stop checker exactly when
    early stopping is on. *)
Definition well_formed (self : Trainer.t) : Prop :=
  Trainer.early_stopping self = true ->
  exists sc, Trainer.stop_checker self = Some sc.

(** No [check] call of this trainer restores a checkpoint. *)
Definition never_restores (self : Trainer.t) : Prop :=
  Trainer.early_stopping self = true ->
  exists sc, Trainer.stop_checker self = Some sc /\ save_model sc = false.

End WithTorch.
End Spec.

(** ** Sequences of [check] calls and what they return *)

Module Calls.
Section WithTorch.
Context {T : Torch}.
Import EarlyStopping.

(** What each call of a sequence of [check] calls gives back, in order. *)
Fixpoint check_results (self : t) (calls : list (Evals * Model * Z))
  : list (result bool) :=
  match calls with
  | [] => []
  | (ev, m, epoch) :: rest =>
      fst (fst (check self ev m epoch))
      :: check_results (snd (fst (check self ev m epoch))) rest
  end.

Definition returned {A} (r : result A) : bool :=
  match r with Ok _ => true | Raise _ => false end.

(** The epochs [1 .. k] as [check] would see a counter grow over them. *)
Definition countup (k : nat) : list Z := map Z.of_nat (seq 1 k).

End WithTorch.
End Calls.

(** ** A small framework to run the code on

    A model is the pair of the number of its re-initialisations and of the
    training steps since the last one. Every mask holds one node. The dataset
    is the number of validation nodes the model gets right; the test node is
    got wrong by the first initialisation only. *)

Module Toy.

#[local] Instance torch : Torch := {|
  Model := Z * Z;
  Optimizer := unit;
  Data := Z;
  StateDict := Z * Z;
  Output := Z * Z;
  model_state_dict := fun m => m;
  model_load_state_dict := fun sd _ => sd;
  Adam := fun _ lr _ => if le zero lr then Ok tt else Raise ValueError;
  Adam_learning_rate := fun _ lr _ H =>
    @eq_ind_r bool false
      (fun b : bool => (if b then Ok tt else Raise ValueError)
                       = Raise ValueError)
      eq_refl (le zero lr) H;
  model_to_device := fun m => m;
  data_to_device := fun d => d;
  reset_parameters := fun m => (fst m + 1, 0);
  train_step := fun m o _ => ((fst m, snd m + 1), o);
  model_eval := fun m => m;
  forward := fun m _ => m;
  nll_loss := fun _ _ _ => one;
  n_correct := fun out d key =>
    match key with
    | TrainMask => 1
    | ValMask => d
    | TestMask => if fst out =? 1 then 0 else 1
    end;
  mask_sum := fun _ _ => 1
|}.

Definition evals (loss acc : float) : Evals :=
  mkEvals one one loss acc one one.

(** [EarlyStopping(patience, False, False, True, True)]: accuracy only,
    checkpoints kept *)
Definition acc_stopper (patience : Z) : EarlyStopping.t :=
  EarlyStopping.mk patience false true true false 0 inf zero None.

(** such an object once it has seen the accuracy 1 on the model [(1, 1)] *)
Definition acc_stopper_seen (patience : Z) : EarlyStopping.t :=
  EarlyStopping.mk patience false true true false 0 inf one (Some (1, 1)).

(** [EarlyStopping(patience, False, True, True, True)] *)
Definition dual_stopper (patience : Z) : EarlyStopping.t :=
  EarlyStopping.mk patience true true true false 0 inf zero None.

(** Two calls: a first evaluation with accuracy 1, then one with
    accuracy 0. *)
Definition two_calls : list (Evals * (Z * Z) * Z) :=
  [ (evals one one, (1, 1), 1); (evals one zero, (1, 2), 2) ].

(** The trainer that [Trainer(model, data, lr, weight_decay, epochs,
    niter, True, patience, use_loss, use_acc, save_model)] builds, on a
    new model, and the machine about to call a method of it. *)
Definition trainer (d epochs niter patience : Z)
    (use_loss use_acc save_model : bool) : Trainer.t :=
  Trainer.mk (0, 0) tt d half zero epochs false niter true
    (Some (EarlyStopping.mk patience use_loss use_acc save_model false
                            0 inf zero None)).

Definition machine (d epochs niter patience : Z)
    (use_loss use_acc save_model : bool) : Trainer.machine :=
  Trainer.mkMachine (trainer d epochs niter patience use_loss use_acc
                             save_model) [].

(** [EarlyStopping(patience, False, True, False, False)]: loss only, no
    checkpoints *)
Definition loss_stopper (patience : Z) : EarlyStopping.t :=
  EarlyStopping.mk patience true false false false 0 inf zero None.

(** Three calls whose accuracy is 0. *)
Definition three_misses : list (Evals * (Z * Z) * Z) :=
  [ (evals one zero, (1, 2), 2); (evals one zero, (1, 3), 3);
    (evals one zero, (1, 4), 4) ].

(** A trainer in the middle of a restart: its weights are those of the
    epoch that reached the validation accuracy 1, of which the stop checker
    (accuracy only, patience 1) keeps the checkpoint; the dataset has no
    validation node the model gets right from now on. *)
Definition midway_trainer : Trainer.t :=
  Trainer.mk (1, 1) tt 0 half zero 3 false 2 true (Some (acc_stopper_seen 1)).

Definition midway_machine : Trainer.machine :=
  Trainer.mkMachine midway_trainer [].

(** What the next epoch of that trainer evaluates to, the machine after
    this evaluation, with the weights [(1, 2)] of the epoch, and the machine
    after the stop check that follows. *)
Definition midway_evals : Evals := mkEvals one one one zero one zero.

Definition midway_evaluated : Trainer.machine :=
  Trainer.mkMachine
    (Trainer.mk (1, 2) tt 0 half zero 3 false 2 true
                (Some (acc_stopper_seen 1)))
    [Trainer.Train; Trainer.Evaluate midway_evals].

Definition midway_stopped : Trainer.machine :=
  Trainer.mkMachine
    (Trainer.mk (1, 1) tt 0 half zero 3 false 2 true
                (Some (EarlyStopping.set_counter 1 (acc_stopper_seen 1))))
    [Trainer.Train; Trainer.Evaluate midway_evals].

(** A trainer built with [early_stopping=False], and its machine. *)
Definition plain_trainer (d epochs niter : Z) : Trainer.t :=
  Trainer.mk (0, 0) tt d half zero epochs false niter false None.

Definition plain_machine (d epochs niter : Z) : Trainer.machine :=
  Trainer.mkMachine (plain_trainer d epochs niter) [].

End Toy.

(** * Properties *)

(** ** The fuel of the pairwise sum *)

Module NumpyFacts.

Lemma halves_shorter (n : nat) :
  (128 < n)%nat ->
  (0 < n / 2 - (n / 2) mod 8 < n)%nat.
Proof.
  intros H.
  pose proof (Nat.Div0.mod_le (n / 2) 8) as Hle.
  pose proof (Nat.mod_upper_bound (n / 2) 8 ltac:(discriminate)) as Hup.
  pose proof (Nat.div_lt n 2 ltac:(lia) ltac:(lia)) as Hhalf.
  assert (64 <= n / 2)%nat by (apply Nat.div_le_lower_bound; lia).
  lia.
Qed.

Lemma pairwise_sum_any_fuel (fuel1 : nat) :
  forall (fuel2 : nat) (xs : list float),
  (List.length xs <= fuel1)%nat -> (List.length xs <= fuel2)%nat ->
  Numpy.pairwise_sum fuel1 xs = Numpy.pairwise_sum fuel2 xs.
Proof.
  induction fuel1 as [|fuel1 IH]; intros fuel2 xs H1 H2.
  - destruct xs; [|cbn in H1; lia]. now destruct fuel2.
  - destruct fuel2 as [|fuel2].
    + destruct xs; [|cbn in H2; lia]. reflexivity.
    + cbn [Numpy.pairwise_sum].
      destruct (List.length xs <? 8)%nat; [reflexivity|].
      destruct (List.length xs <=? 128)%nat eqn:E; [reflexivity|].
      apply Nat.leb_gt in E.
      pose proof (halves_shorter _ E) as Hn.
      f_equal; apply IH; rewrite ?length_firstn, ?length_skipn; lia.
Qed.

(** The length of the list is fuel enough: more fuel gives the same sum. *)
Lemma pairwise_sum_fuel (fuel : nat) (xs : list float) :
  (List.length xs <= fuel)%nat ->
  Numpy.pairwise_sum fuel xs = Numpy.pairwise_sum (List.length xs) xs.
Proof. intros H. now apply pairwise_sum_any_fuel. Qed.

(** Short lists are added left to right. *)
Lemma sum_short (xs : list float) :
  (List.length xs < 8)%nat -> Numpy.sum xs = add zero (fold_left add xs zero).
Proof.
  intros H. unfold Numpy.sum.
  destruct xs as [|x xs]; [reflexivity|].
  cbn [Numpy.pairwise_sum List.length].
  apply Nat.ltb_lt in H. cbn [List.length] in H. now rewrite H.
Qed.

End NumpyFacts.

(** ** The order on floats *)

Module FloatOrder.

Lemma compare_cont_Eq (m n : positive) :
  PosDef.Pos.compare_cont Eq m n = Pos.compare m n.
Proof. reflexivity. Qed.

Ltac cases :=
  repeat match goal with
  | H : context [Z.compare ?x ?y] |- _ =>
      let E := fresh "E" in
      destruct (Z.compare x y) eqn:E;
      [ apply Z.compare_eq_iff in E
      | rewrite Z.compare_lt_iff in E
      | rewrite Z.compare_gt_iff in E ]
  | |- context [Z.compare ?x ?y] =>
      let E := fresh "E" in
      destruct (Z.compare x y) eqn:E;
      [ apply Z.compare_eq_iff in E
      | rewrite Z.compare_lt_iff in E
      | rewrite Z.compare_gt_iff in E ]
  | H : context [Pos.compare ?x ?y] |- _ =>
      let E := fresh "E" in
      destruct (Pos.compare x y) eqn:E;
      [ apply Pos.compare_eq_iff in E
      | rewrite Pos.compare_lt_iff in E
      | rewrite Pos.compare_gt_iff in E ]
  | |- context [Pos.compare ?x ?y] =>
      let E := fresh "E" in
      destruct (Pos.compare x y) eqn:E;
      [ apply Pos.compare_eq_iff in E
      | rewrite Pos.compare_lt_iff in E
      | rewrite Pos.compare_gt_iff in E ]
  end.

Ltac order :=
  intros;
  unfold lt, le, gt, ge, SFltb, SFleb, is_nan in *;
  repeat match goal with
  | x : float |- _ => destruct x as [[|]|[|]| |[|] ? ?]
  end;
  cbn [SFcompare] in *; rewrite ?compare_cont_Eq in *;
  try congruence; try reflexivity;
  cases; cbn [CompOpp] in *;
  try congruence; try reflexivity; try (exfalso; lia).

Lemma lt_le (a b : float) : lt a b = true -> le a b = true.
Proof. order. Qed.

Lemma lt_not_nan (a b : float) :
  lt a b = true -> is_nan a = false /\ is_nan b = false.
Proof. order; split; congruence. Qed.

Lemma le_refl (a : float) : is_nan a = false -> le a a = true.
Proof. order. Qed.

Lemma le_total (a b : float) :
  is_nan a = false -> is_nan b = false -> lt a b = false -> le b a = true.
Proof. order. Qed.

Lemma le_trans (a b c : float) :
  le a b = true -> le b c = true -> le a c = true.
Proof. order. Qed.

Lemma not_le_not_lt (a b : float) : le a b = false -> lt a b = false.
Proof. order. Qed.

End FloatOrder.

(** ** The builtins [min] and [max] folded over a list *)

Module MinMax.
Import FloatOrder.

Lemma pymin_not_nan (a b : float) :
  is_nan a = false -> is_nan (pymin a b) = false.
Proof.
  unfold pymin. intros Ha. destruct (lt b a) eqn:E; [|exact Ha].
  apply lt_not_nan in E. tauto.
Qed.

Lemma pymax_not_nan (a b : float) :
  is_nan a = false -> is_nan (pymax a b) = false.
Proof.
  unfold pymax. change (gt b a) with (lt a b). intros Ha. destruct (lt a b) eqn:E; [|exact Ha].
  apply lt_not_nan in E. tauto.
Qed.

Lemma pymin_le_l (a b : float) :
  is_nan a = false -> le (pymin a b) a = true.
Proof.
  unfold pymin. intros Ha. destruct (lt b a) eqn:E.
  - now apply lt_le.
  - now apply le_refl.
Qed.

Lemma pymin_le_r (a b : float) :
  is_nan a = false -> is_nan b = false -> le (pymin a b) b = true.
Proof.
  unfold pymin. intros Ha Hb. destruct (lt b a) eqn:E.
  - now apply le_refl.
  - now apply le_total.
Qed.

Lemma pymax_ge_l (a b : float) :
  is_nan a = false -> le a (pymax a b) = true.
Proof.
  unfold pymax. change (gt b a) with (lt a b). intros Ha. destruct (lt a b) eqn:E.
  - now apply lt_le.
  - now apply le_refl.
Qed.

Lemma pymax_ge_r (a b : float) :
  is_nan a = false -> is_nan b = false -> le b (pymax a b) = true.
Proof.
  unfold pymax. change (gt b a) with (lt a b). intros Ha Hb. destruct (lt a b) eqn:E.
  - now apply le_refl.
  - now apply le_total.
Qed.

Lemma fold_pymin_not_nan (xs : list float) : forall a,
  is_nan a = false -> is_nan (fold_left pymin xs a) = false.
Proof.
  induction xs as [|b xs IH]; intros a Ha; cbn; [exact Ha|].
  apply IH. now apply pymin_not_nan.
Qed.

Lemma fold_pymax_not_nan (xs : list float) : forall a,
  is_nan a = false -> is_nan (fold_left pymax xs a) = false.
Proof.
  induction xs as [|b xs IH]; intros a Ha; cbn; [exact Ha|].
  apply IH. now apply pymax_not_nan.
Qed.

Lemma fold_pymin_In (xs : list float) : forall a,
  In (fold_left pymin xs a) (a :: xs).
Proof.
  induction xs as [|b xs IH]; intros a; cbn; [now left|].
  destruct (IH (pymin a b)) as [H|H].
  - rewrite <- H. unfold pymin. destruct (lt b a); auto.
  - auto.
Qed.

Lemma fold_pymax_In (xs : list float) : forall a,
  In (fold_left pymax xs a) (a :: xs).
Proof.
  induction xs as [|b xs IH]; intros a; cbn; [now left|].
  destruct (IH (pymax a b)) as [H|H].
  - rewrite <- H. unfold pymax. destruct (gt b a); auto.
  - auto.
Qed.

(** The fold is below every number it has seen. *)
Lemma fold_pymin_lower (xs : list float) : forall a x,
  is_nan a = false -> In x (a :: xs) -> is_nan x = false ->
  le (fold_left pymin xs a) x = true.
Proof.
  induction xs as [|b xs IH]; intros a x Ha Hin Hx; cbn.
  - destruct Hin as [<-|[]]. now apply le_refl.
  - assert (Hm : is_nan (pymin a b) = false) by now apply pymin_not_nan.
    assert (H0 : le (fold_left pymin xs (pymin a b)) (pymin a b) = true)
      by (apply IH; auto; now left).
    destruct Hin as [<-|[<-|Hin]].
    + eapply le_trans; [exact H0|]. now apply pymin_le_l.
    + eapply le_trans; [exact H0|]. now apply pymin_le_r.
    + apply IH; auto. now right.
Qed.

(** The fold is above every number it has seen. *)
Lemma fold_pymax_upper (xs : list float) : forall a x,
  is_nan a = false -> In x (a :: xs) -> is_nan x = false ->
  le x (fold_left pymax xs a) = true.
Proof.
  induction xs as [|b xs IH]; intros a x Ha Hin Hx; cbn.
  - destruct Hin as [<-|[]]. now apply le_refl.
  - assert (Hm : is_nan (pymax a b) = false) by now apply pymax_not_nan.
    assert (H0 : le (pymax a b) (fold_left pymax xs (pymax a b)) = true)
      by (apply IH; auto; now left).
    destruct Hin as [<-|[<-|Hin]].
    + eapply le_trans; [|exact H0]. now apply pymax_ge_l.
    + eapply le_trans; [|exact H0]. now apply pymax_ge_r.
    + apply IH; auto. now right.
Qed.

End MinMax.

(** ** EarlyStopping *)

Module EarlyStoppingFacts.
Section WithTorch.
Context {T : Torch}.
Import EarlyStopping Spec FloatOrder MinMax.

Lemma same_config_refl (a : t) : same_config a a.
Proof. repeat split. Qed.

Lemma same_config_trans (a b c : t) :
  same_config a b -> same_config b c -> same_config a c.
Proof. unfold same_config. intuition congruence. Qed.

Lemma update_config (self : t) (evals : Evals) (model : Model) :
  same_config (update self evals model) self.
Proof.
  unfold update, save, same_config.
  repeat match goal with
  | |- context [if ?b then _ else _] => destruct b eqn:?
  end; cbn; repeat split; congruence.
Qed.

Lemma check_self (self : t) (evals : Evals) (model : Model) (epoch : Z) :
  snd (fst (check self evals model epoch)) = update self evals model.
Proof. unfold check. now destruct (stop_or_go _ _). Qed.

Lemma checks_snoc (self : t) calls (evals : Evals) (model : Model)
    (epoch : Z) :
  checks self (calls ++ [(evals, model, epoch)])
  = update (checks self calls) evals model.
Proof. unfold checks. rewrite fold_left_app. cbn. apply check_self. Qed.

Lemma checks_config calls : forall self : t,
  same_config (checks self calls) self.
Proof.
  induction calls as [|[[ev m] ep] calls IH]; intros self.
  - apply same_config_refl.
  - cbn. rewrite check_self.
    eapply same_config_trans; [apply IH | apply update_config].
Qed.

(** With [use_loss] on, one call moves [best_val_loss] to the [min] of
    itself and the new loss, in both modes that look at the loss. *)
Ltac fields := cbn -[pymin pymax lt le gt ge] in *.

Lemma update_best_val_loss (self : t) (evals : Evals) (model : Model) :
  use_loss self = true ->
  best_val_loss (update self evals model)
  = pymin (best_val_loss self) (val_loss evals).
Proof.
  intros Hl. unfold update, save. rewrite Hl. cbn [andb]. fields.
  destruct (use_acc self).
  - destruct (le (val_loss evals) (best_val_loss self)) eqn:Ele; cbn [orb andb].
    + destruct (ge _ _), (save_model self); reflexivity.
    + apply not_le_not_lt in Ele. unfold pymin. rewrite Ele.
      destruct (ge _ _); reflexivity.
  - unfold pymin. destruct (lt _ _); [|reflexivity].
    destruct (save_model self); reflexivity.
Qed.

Lemma update_best_val_acc (self : t) (evals : Evals) (model : Model) :
  use_acc self = true ->
  best_val_acc (update self evals model)
  = pymax (best_val_acc self) (val_acc evals).
Proof.
  intros Ha. unfold update, save. rewrite Ha. fields.
  destruct (use_loss self); cbn [andb].
  - destruct (ge (val_acc evals) (best_val_acc self)) eqn:Ege.
    + rewrite orb_true_r. destruct (le _ _), (save_model self); reflexivity.
    + rewrite orb_false_r. unfold ge in Ege. apply not_le_not_lt in Ege.
      destruct (le _ _), (save_model self); fields; unfold pymax;
        change (gt (val_acc evals) (best_val_acc self))
          with (lt (best_val_acc self) (val_acc evals));
        rewrite ?Ege; reflexivity.
  - unfold pymax. destruct (gt _ _); [|reflexivity].
    destruct (save_model self); reflexivity.
Qed.

Lemma checks_best_val_loss calls : forall self : t,
  use_loss self = true ->
  best_val_loss (checks self calls)
  = fold_left pymin (map val_loss (evals_of calls)) (best_val_loss self).
Proof.
  induction calls as [|[[ev m] ep] calls IH]; intros self Hl; [reflexivity|].
  cbn. rewrite check_self.
  change (fold_left _ calls ?s) with (checks s calls).
  rewrite IH.
  - now rewrite update_best_val_loss.
  - destruct (update_config self ev m) as (_ & -> & _). exact Hl.
Qed.

Lemma checks_best_val_acc calls : forall self : t,
  use_acc self = true ->
  best_val_acc (checks self calls)
  = fold_left pymax (map val_acc (evals_of calls)) (best_val_acc self).
Proof.
  induction calls as [|[[ev m] ep] calls IH]; intros self Ha; [reflexivity|].
  cbn. rewrite check_self.
  change (fold_left _ calls ?s) with (checks s calls).
  rewrite IH.
  - now rewrite update_best_val_acc.
  - destruct (update_config self ev m) as (_ & _ & -> & _). exact Ha.
Qed.

(** What [check] returns, read off the object it leaves behind. *)
Lemma check_result (self : t) (evals : Evals) (model : Model) (epoch : Z) :
  let self' := update self evals model in
  fst (fst (check self evals model epoch))
  = if patience self <=? counter self' then
      if save_model self then
        match state_dict self' with
        | Some _ => Ok true
        | None => Raise TypeError
        end
      else Ok true
    else Ok false.
Proof.
  cbn. unfold check, stop_or_go.
  destruct (update_config self evals model) as (-> & _ & _ & -> & _).
  destruct (_ <=? _); [|reflexivity].
  destruct (save_model self); [|reflexivity].
  now destruct (state_dict _).
Qed.

(** The counter after one call: the number of calls in a row, this one
    included, that brought no improvement. *)
Lemma update_counter (self : t) (evals : Evals) (model : Model) :
  use_loss self || use_acc self = true ->
  counter (update self evals model)
  = if improves self evals then 0 else counter self + 1.
Proof.
  unfold update, improves, save. fields.
  destruct (use_loss self), (use_acc self); cbn [andb orb];
    try discriminate; intros _.
  - destruct (le _ _), (ge _ _), (save_model self); reflexivity.
  - destruct (lt _ _), (save_model self); reflexivity.
  - destruct (gt _ _), (save_model self); reflexivity.
Qed.

(** The checkpoint after one call. *)
Lemma update_state_dict (self : t) (evals : Evals) (model : Model) :
  state_dict (update self evals model)
  = if save_model self && is_best self evals
    then Some (model_state_dict model) else state_dict self.
Proof.
  unfold update, is_best, save. fields.
  destruct (use_loss self), (use_acc self); cbn [andb].
  - destruct (le _ _), (ge _ _), (save_model self); reflexivity.
  - destruct (lt _ _), (save_model self); reflexivity.
  - destruct (gt _ _), (save_model self); reflexivity.
  - now rewrite andb_false_r.
Qed.

End WithTorch.
End EarlyStoppingFacts.

Module EarlyStoppingProperties.
Section WithTorch.
Context {T : Torch}.
Import EarlyStopping Spec FloatOrder MinMax EarlyStoppingFacts.

(** C8. The constructor raises an assertion error when both [use_loss]
    and [use_acc] are false; with any other combination it succeeds and
    the new object has counter 0, best validation loss infinity, best
    validation accuracy 0 and no checkpoint. *)
Theorem init_needs_a_criterion (patience : Z) (verbose save_model : bool) :
  init patience verbose false false save_model
  = Raise (AssertionError "use loss or (and) acc")
  /\ (forall use_acc,
        init patience verbose true use_acc save_model
        = Ok (mk patience true use_acc save_model verbose 0 inf zero None))
  /\ init patience verbose false true save_model
     = Ok (mk patience false true save_model verbose 0 inf zero None).
Proof. repeat split. Qed.

(** C9. After any sequence of [check] calls, [reset] puts the object back
    to exactly what the constructor built: counter, best loss, best
    accuracy and checkpoint as new, configuration untouched. Right after
    construction [reset] changes nothing. *)
Theorem reset_restores_fresh (patience : Z)
    (verbose use_loss use_acc save_model : bool) (self : t)
    (calls : list (Evals * Model * Z)) :
  init patience verbose use_loss use_acc save_model = Ok self ->
  reset (checks self calls) = self /\ reset self = self.
Proof.
  unfold init. destruct (use_loss || use_acc); [|discriminate].
  intros [= <-]. split; [|reflexivity].
  destruct (checks_config calls
              (mk patience use_loss use_acc save_model verbose 0 inf zero None))
    as (Hp & Hl & Ha & Hs & Hv).
  unfold reset, set_state_dict, set_best_val_acc, set_best_val_loss,
    set_counter. cbn in *. now rewrite Hp, Hl, Ha, Hs, Hv.
Qed.

(** C3. With [use_loss], [use_acc] and [save_model] all on, a [check] call
    replaces the kept checkpoint by a copy of the model's state exactly
    when the loss is at most the best loss and the accuracy at least the
    best accuracy; the counter goes to 0 when at least one of the two
    comparisons holds and grows by 1 when neither does. *)
Theorem dual_criterion_checkpoint (self : t) (evals : Evals)
    (model : Model) (epoch : Z) :
  use_loss self = true -> use_acc self = true -> save_model self = true ->
  let loss_ok := le (val_loss evals) (best_val_loss self) in
  let acc_ok := ge (val_acc evals) (best_val_acc self) in
  let self' := snd (fst (check self evals model epoch)) in
  state_dict self'
  = (if loss_ok && acc_ok then Some (model_state_dict model)
     else state_dict self)
  /\ counter self' = (if loss_ok || acc_ok then 0 else counter self + 1).
Proof.
  intros Hl Ha Hs. cbn zeta. rewrite check_self. split.
  - rewrite update_state_dict. unfold is_best. now rewrite Hs, Hl, Ha.
  - unfold update, save. rewrite Hl, Ha, Hs. cbn [andb].
    destruct (le _ _), (ge _ _); reflexivity.
Qed.

(** C2. On an object built by the constructor, after every sequence of
    [check] calls: with [use_loss] on, the best validation loss is the
    [min] of infinity and the losses seen, it is one of them and at most
    each of them, and one more call never raises it; with [use_acc] on,
    the best validation accuracy is the [max] of 0 and the accuracies
    seen, it is one of them and at least each of them, and one more call
    never lowers it. (A NaN is never below or above anything.) *)
Theorem best_metrics_tracked (patience : Z)
    (verbose use_loss use_acc save_model : bool) (self : t)
    (calls : list (Evals * Model * Z)) :
  init patience verbose use_loss use_acc save_model = Ok self ->
  let losses := map val_loss (evals_of calls) in
  let accs := map val_acc (evals_of calls) in
  let self' := checks self calls in
  (use_loss = true ->
     best_val_loss self' = fold_left pymin losses inf
     /\ In (best_val_loss self') (inf :: losses)
     /\ (forall x, In x (inf :: losses) -> is_nan x = false ->
           le (best_val_loss self') x = true)
     /\ (forall call,
           le (best_val_loss (checks self (calls ++ [call])))
              (best_val_loss self') = true))
  /\ (use_acc = true ->
     best_val_acc self' = fold_left pymax accs zero
     /\ In (best_val_acc self') (zero :: accs)
     /\ (forall x, In x (zero :: accs) -> is_nan x = false ->
           le x (best_val_acc self') = true)
     /\ (forall call,
           le (best_val_acc self')
              (best_val_acc (checks self (calls ++ [call]))) = true)).
Proof.
  unfold init. destruct (use_loss || use_acc); [|discriminate].
  intros [= <-]. cbn zeta.
  set (self := mk patience use_loss use_acc save_model verbose 0 inf zero None).
  split; intros ->.
  - assert (E : best_val_loss (checks self calls)
                = fold_left pymin (map val_loss (evals_of calls)) inf)
      by (now rewrite checks_best_val_loss).
    split; [exact E|]. rewrite E. split; [apply fold_pymin_In|].
    split; [intros x; now apply fold_pymin_lower|].
    intros [[ev m] ep]. rewrite checks_snoc, update_best_val_loss.
    + rewrite E. apply pymin_le_l. now apply fold_pymin_not_nan.
    + now destruct (checks_config calls self) as (_ & -> & _).
  - assert (E : best_val_acc (checks self calls)
                = fold_left pymax (map val_acc (evals_of calls)) zero)
      by (now rewrite checks_best_val_acc).
    split; [exact E|]. rewrite E. split; [apply fold_pymax_In|].
    split; [intros x; now apply fold_pymax_upper|].
    intros [[ev m] ep]. rewrite checks_snoc, update_best_val_acc.
    + rewrite E. apply pymax_ge_l. now apply fold_pymax_not_nan.
    + now destruct (checks_config calls self) as (_ & _ & -> & _).
Qed.

(** When [check] returns true on an object with [save_model] on, a
    checkpoint is kept and the model that [check] leaves is that
    checkpoint loaded into it; the checkpoint is the copy taken in this
    very call when this evaluation is the best one, and the one kept from
    the latest earlier save otherwise. *)
Lemma check_restores_kept (self self' : t) (evals : Evals)
    (model model' : Model) (epoch : Z) :
  check self evals model epoch = (Ok true, self', model') ->
  save_model self = true ->
  exists sd,
    state_dict self' = Some sd
    /\ model' = model_load_state_dict sd model
    /\ Some sd = (if is_best self evals then Some (model_state_dict model)
                  else state_dict self).
Proof.
  intros Hc Hs.
  assert (Hself : self' = update self evals model)
    by (rewrite <- (check_self self evals model epoch); now rewrite Hc).
  assert (Hsd := update_state_dict self evals model).
  rewrite Hs in Hsd. cbn [andb] in Hsd. rewrite <- Hself in Hsd.
  unfold check, stop_or_go in Hc. rewrite <- Hself in Hc.
  destruct (update_config self evals model) as (_ & _ & _ & Hs' & _).
  rewrite <- Hself, Hs in Hs'. rewrite Hs' in Hc.
  destruct (patience self' <=? counter self'); [|discriminate].
  destruct (state_dict self') as [sd|]; [|discriminate].
  injection Hc as <-. exists sd. auto.
Qed.

End WithTorch.

End EarlyStoppingProperties.

(** ** Traces *)

Module TraceFacts.
Section WithTorch.
Context {T : Torch}.
Import Trainer Trace.

Lemma restarts_app (a b : list event) :
  restarts (a ++ b) = (restarts a + restarts b)%nat.
Proof. unfold restarts. now rewrite filter_app, length_app. Qed.

Lemma restarts_body (body : list event) :
  Forall (fun e => is_reset e = false) body -> restarts body = 0%nat.
Proof.
  unfold restarts. induction 1 as [|e body He _ IH]; [reflexivity|].
  cbn. now rewrite He.
Qed.

(** Reading on through the body of a restart that ends with an
    evaluation. *)
Lemma finals_from_body (body : list event) (f : Evals) (rest : list event) :
  Forall (fun e => is_reset e = false) body ->
  forall last,
    finals_from last (body ++ Evaluate f :: rest) = finals_from (Some f) rest.
Proof.
  induction 1 as [|e body He _ IH]; intros last; [reflexivity|].
  destruct e; [discriminate| |]; cbn; apply IH.
Qed.

Lemma trains_from_body (body : list event) (rest : list event) :
  Forall (fun e => is_reset e = false) body ->
  forall k,
    trains_from (Some k) (body ++ rest)
    = trains_from (Some (k + List.length (filter is_train body))%nat) rest.
Proof.
  induction 1 as [|e body He _ IH]; intros k.
  - cbn. now rewrite Nat.add_0_r.
  - destruct e; [discriminate| |]; cbn; rewrite IH; do 2 f_equal; lia.
Qed.

End WithTorch.
End TraceFacts.

(** ** Trainer *)

Module TrainerFacts.
Section WithTorch.
Context {T : Torch}.
Import Trainer Trace Spec TraceFacts.

Lemma keeps_refl (a : t) : keeps a a.
Proof.
  unfold keeps. repeat split. destruct (stop_checker a); [|exact I].
  apply EarlyStoppingFacts.same_config_refl.
Qed.

Lemma keeps_trans (a b c : t) : keeps a b -> keeps b c -> keeps a c.
Proof.
  unfold keeps.
  intros (?&?&?&?&?&?&?&Hab) (?&?&?&?&?&?&?&Hbc).
  repeat split; try congruence.
  destruct (stop_checker a), (stop_checker b), (stop_checker c);
    try contradiction; try exact I.
  eapply EarlyStoppingFacts.same_config_trans; eassumption.
Qed.

Lemma keeps_set_model (a : t) (m : Model) : keeps a (set_model m a).
Proof. exact (keeps_refl a). Qed.

Lemma keeps_set_optimizer (a : t) (o : Optimizer) :
  keeps a (set_optimizer o a).
Proof. exact (keeps_refl a). Qed.

Lemma keeps_never_restores (a b : t) :
  keeps a b -> never_restores a -> never_restores b.
Proof.
  unfold keeps, never_restores.
  intros (_&_&_&_&_&_&He&Hsc) Ha Hb. rewrite He in Hb.
  destruct (Ha Hb) as (sc & Hsome & Hsave). rewrite Hsome in Hsc.
  destruct (stop_checker b) as [sc'|]; [|contradiction].
  exists sc'. split; [reflexivity|].
  destruct Hsc as (_&_&_&->&_). exact Hsave.
Qed.

Lemma keeps_well_formed (a b : t) :
  keeps a b -> well_formed a -> well_formed b.
Proof.
  unfold keeps, well_formed.
  intros (_&_&_&_&_&_&He&Hsc) Ha Hb. rewrite He in Hb.
  destruct (Ha Hb) as (sc & Hsome). rewrite Hsome in Hsc.
  destruct (stop_checker b) as [sc'|]; [|contradiction]. now exists sc'.
Qed.

Lemma keeps_usable (a b : t) : keeps a b -> usable a -> usable b.
Proof.
  unfold keeps, usable, adam_accepts.
  intros (Hd & Hlr & Hwd & _) [Hm Ha]. rewrite Hd, Hlr, Hwd. now split.
Qed.

(** *** The methods, one call at a time *)

Lemma train_eq (s : machine) :
  let ts := train_step (model (self s)) (optimizer (self s)) (data (self s)) in
  train s
  = (Ok tt,
     mkMachine (set_optimizer (snd ts) (set_model (fst ts) (self s)))
               (trace s ++ [Train])).
Proof.
  cbn zeta. unfold train, bind, emit, get, modify. cbn.
  now destruct (train_step _ _ _).
Qed.

Lemma train_shape (s : machine) :
  trace (snd (train s)) = trace s ++ [Train]
  /\ keeps (self s) (self (snd (train s))).
Proof.
  rewrite train_eq. cbn. split; [reflexivity|].
  eapply keeps_trans; [apply keeps_set_model | apply keeps_set_optimizer].
Qed.

Lemma accuracy_returns (output : Output) (d : Data) (key : Split) :
  mask_sum d key <> 0 -> exists a, accuracy output d key = Ok a.
Proof.
  intros H. unfold accuracy. destruct (mask_sum d key =? 0) eqn:E.
  - apply Z.eqb_eq in E. contradiction.
  - eauto.
Qed.

Lemma accuracy_raises (output : Output) (d : Data) (key : Split) (e : exn) :
  accuracy output d key = Raise e ->
  e = ZeroDivisionError /\ mask_sum d key = 0.
Proof.
  unfold accuracy. destruct (mask_sum d key =? 0) eqn:E; [|discriminate].
  apply Z.eqb_eq in E. now intros [= <-].
Qed.

Lemma outputs_of_returns (output : Output) (d : Data) :
  masks_not_empty d -> exists f, outputs_of output d = Ok f.
Proof.
  intros H. unfold outputs_of.
  destruct (accuracy_returns output d TrainMask (H _)) as [a1 ->].
  destruct (accuracy_returns output d ValMask (H _)) as [a2 ->].
  destruct (accuracy_returns output d TestMask (H _)) as [a3 ->].
  eauto.
Qed.

Lemma outputs_of_raises (output : Output) (d : Data) (e : exn) :
  outputs_of output d = Raise e ->
  e = ZeroDivisionError /\ exists key, mask_sum d key = 0.
Proof.
  unfold outputs_of.
  destruct (accuracy output d TrainMask) eqn:E1.
  - destruct (accuracy output d ValMask) eqn:E2.
    + destruct (accuracy output d TestMask) eqn:E3; [discriminate|].
      intros [= <-]. apply accuracy_raises in E3. destruct E3. eauto.
    + intros [= <-]. apply accuracy_raises in E2. destruct E2. eauto.
  - intros [= <-]. apply accuracy_raises in E1. destruct E1. eauto.
Qed.

Lemma evaluate_eq (s : machine) :
  let model' := model_eval (model (self s)) in
  evaluate s
  = match outputs_of (forward model' (data (self s))) (data (self s)) with
    | Ok outputs =>
        (Ok outputs,
         mkMachine (set_model model' (self s))
                   (trace s ++ [Evaluate outputs]))
    | Raise e => (Raise e, mkMachine (set_model model' (self s)) (trace s))
    end.
Proof.
  cbn zeta. unfold evaluate, bind, get, modify, emit, raise, ret. cbn.
  now destruct (outputs_of _ _).
Qed.

Lemma evaluate_shape (s : machine) :
  trace (snd (evaluate s)) = trace s ++ ending (fst (evaluate s))
  /\ keeps (self s) (self (snd (evaluate s)))
  /\ (masks_not_empty (data (self s)) -> exists f, fst (evaluate s) = Ok f)
  /\ (forall e, fst (evaluate s) = Raise e ->
        e = ZeroDivisionError /\ exists key, mask_sum (data (self s)) key = 0).
Proof.
  rewrite evaluate_eq. cbn zeta.
  pose proof (outputs_of_returns
                (forward (model_eval (model (self s))) (data (self s)))
                (data (self s))) as Hret.
  pose proof (outputs_of_raises
                (forward (model_eval (model (self s))) (data (self s)))
                (data (self s))) as Hkind.
  destruct (outputs_of _ _) as [f|e]; cbn [fst snd trace self ending].
  - split; [reflexivity|]. split; [apply keeps_set_model|].
    split; [eauto | discriminate].
  - split; [now rewrite app_nil_r|]. split; [apply keeps_set_model|].
    split.
    + intros Hm. destruct (Hret Hm) as [f [=]].
    + intros e' [= <-]. now apply Hkind.
Qed.

Lemma reset_eq (s : machine) :
  reset s
  = (match Adam (model (self s)) (lr (self s)) (weight_decay (self s)) with
     | Raise e => Raise e
     | Ok _ =>
         if early_stopping (self s) then
           match stop_checker (self s) with
           | Some _ => Ok tt
           | None => Raise AttributeError
           end
         else Ok tt
     end,
     mkMachine (after_reset (self s)) (trace s ++ [Reset])).
Proof.
  unfold reset, after_reset, bind, emit, get, modify, raise, ret. cbn.
  destruct (Adam _ _ _); [|reflexivity].
  destruct (early_stopping (self s)); [|reflexivity].
  now destruct (stop_checker (self s)).
Qed.

Lemma keeps_after_reset (a : t) : keeps a (after_reset a).
Proof.
  unfold after_reset. destruct (Adam _ _ _); [|apply keeps_refl].
  unfold keeps.
  destruct (early_stopping a) eqn:He, (stop_checker a) as [sc|] eqn:Hsc;
    cbn; rewrite ?He, ?Hsc; repeat split.
Qed.

Lemma reset_returns (s : machine) :
  well_formed (self s) -> adam_accepts (self s) -> fst (reset s) = Ok tt.
Proof.
  intros Hwf Ha. rewrite reset_eq. cbn [fst].
  destruct (Ha (model (self s))) as [o ->].
  destruct (early_stopping (self s)) eqn:He; [|reflexivity].
  destruct (Hwf He) as [sc ->]. reflexivity.
Qed.

Lemma stop_check_eq (evals : Evals) (epoch : Z) (s : machine) :
  stop_check evals epoch s
  = match stop_checker (self s) with
    | Some sc =>
        let out := EarlyStopping.check sc evals (model (self s)) epoch in
        (fst (fst out),
         mkMachine
           (set_model (snd out)
              (set_stop_checker (Some (snd (fst out))) (self s)))
           (trace s))
    | None => (Raise AttributeError, s)
    end.
Proof.
  unfold stop_check, bind, get, modify, raise, ret. cbn.
  destruct (stop_checker (self s)) as [sc|]; [|reflexivity].
  destruct (EarlyStopping.check _ _ _ _) as [[[b|e] sc'] m']; reflexivity.
Qed.

Lemma stop_check_frame (evals : Evals) (epoch : Z) (s : machine) :
  let s' := snd (stop_check evals epoch s) in
  trace s' = trace s /\ keeps (self s) (self s').
Proof.
  cbn zeta. rewrite stop_check_eq.
  destruct (stop_checker (self s)) as [sc|] eqn:E.
  - cbn. split; [reflexivity|]. unfold keeps. cbn. rewrite E.
    repeat split; rewrite EarlyStoppingFacts.check_self;
      apply EarlyStoppingFacts.update_config.
  - split; [reflexivity | apply keeps_refl].
Qed.

Lemma stop_check_returns (evals : Evals) (epoch : Z) (s : machine) :
  never_restores (self s) -> early_stopping (self s) = true ->
  exists stop, fst (stop_check evals epoch s) = Ok stop.
Proof.
  intros Hn He. destruct (Hn He) as (sc & Hsc & Hsave).
  rewrite stop_check_eq, Hsc. cbn.
  rewrite EarlyStoppingFacts.check_result, Hsave.
  destruct (_ <=? _); eauto.
Qed.

(** *** The epoch loop *)

(** One pass of the epoch loop: train, evaluate, and then either leave
    the loop (the evaluation raised, the stop checker said stop, or it
    raised) or go on with the epochs that are left. *)
Lemma epoch_loop_cons (epoch : Z) (todo : list Z) (s : machine) :
  epoch_loop (epoch :: todo) s
  = match evaluate (snd (train s)) with
    | (Ok evals, s2) =>
        if early_stopping (self s2) then
          match stop_check evals epoch s2 with
          | (Ok true, s3) => (Ok tt, s3)
          | (Ok false, s3) => epoch_loop todo s3
          | (Raise e, s3) => (Raise e, s3)
          end
        else epoch_loop todo s2
    | (Raise e, s2) => (Raise e, s2)
    end.
Proof.
  cbn [epoch_loop]. unfold bind at 1. rewrite train_eq. cbn [snd].
  unfold bind at 1. destruct (evaluate _) as [[evals|e] s2]; [|reflexivity].
  unfold bind at 1, get at 1.
  destruct (early_stopping (self s2)); [|reflexivity].
  unfold bind at 1.
  destruct (stop_check _ _ _) as [[[|]|e] s3]; reflexivity.
Qed.

Lemma epoch_loop_shape (todo : list Z) : forall s : machine,
  exists body,
    trace (snd (epoch_loop todo s)) = trace s ++ body
    /\ Forall (fun e => is_reset e = false) body
    /\ (List.length (filter is_train body) <= List.length todo)%nat
    /\ keeps (self s) (self (snd (epoch_loop todo s)))
    /\ (never_restores (self s) -> masks_not_empty (data (self s)) ->
        fst (epoch_loop todo s) = Ok tt).
Proof.
  induction todo as [|epoch todo IH]; intros s.
  - exists []. cbn. rewrite app_nil_r.
    split; [reflexivity|]. split; [constructor|]. split; [lia|].
    split; [apply keeps_refl | reflexivity].
  - rewrite epoch_loop_cons.
    destruct (train_shape s) as [Ht1 Hk1].
    set (s1 := snd (train s)) in *.
    destruct (evaluate_shape s1) as (Ht2 & Hk2' & Hret2 & _).
    assert (Hd1 : data (self s1) = data (self s))
      by (destruct Hk1 as (Hd & _); exact Hd).
    rewrite Hd1 in Hret2. clearbody s1.
    destruct (evaluate s1) as [[evals|e] s2]; cbn [fst snd ending] in *.
    + assert (Hk2 : keeps (self s) (self s2))
        by (eapply keeps_trans; eassumption).
      rewrite Ht1, <- app_assoc in Ht2. cbn [app] in Ht2. clear Hret2.
      assert (Hbase : forall s3,
                trace s3 = trace s2 -> keeps (self s2) (self s3) ->
                exists body,
                  trace s3 = trace s ++ body
                  /\ Forall (fun e => is_reset e = false) body
                  /\ (List.length (filter is_train body)
                      <= S (List.length todo))%nat
                  /\ keeps (self s) (self s3)).
      { intros s3 Ht3 Hk3. exists [Train; Evaluate evals].
        rewrite Ht3, Ht2. split; [reflexivity|].
        split; [repeat constructor|]. split; [cbn; lia|].
        eapply keeps_trans; eassumption. }
      assert (Hrec : forall s3,
                trace s3 = trace s2 -> keeps (self s2) (self s3) ->
                exists body,
                  trace (snd (epoch_loop todo s3)) = trace s ++ body
                  /\ Forall (fun e => is_reset e = false) body
                  /\ (List.length (filter is_train body)
                      <= S (List.length todo))%nat
                  /\ keeps (self s) (self (snd (epoch_loop todo s3)))
                  /\ (never_restores (self s) ->
                      masks_not_empty (data (self s)) ->
                      fst (epoch_loop todo s3) = Ok tt)).
      { intros s3 Ht3 Hk3.
        destruct (IH s3) as (body & Hb & Hnr & Hlen & Hk & Hok).
        assert (Hk03 : keeps (self s) (self s3))
          by (eapply keeps_trans; eassumption).
        exists ([Train; Evaluate evals] ++ body).
        rewrite Hb, Ht3, Ht2, <- app_assoc. split; [reflexivity|].
        split; [repeat constructor; exact Hnr|]. split; [cbn; lia|]. split.
        - eapply keeps_trans; eassumption.
        - intros Hn Hm. apply Hok.
          + eapply keeps_never_restores; eassumption.
          + destruct Hk03 as (-> & _). exact Hm. }
      destruct (early_stopping (self s2)) eqn:He.
      * destruct (stop_check_frame evals epoch s2) as [Ht3 Hk3].
        pose proof (stop_check_returns evals epoch s2) as Hret.
        destruct (stop_check evals epoch s2) as [[[|]|e] s3];
          cbn [snd fst] in *.
        -- destruct (Hbase s3 Ht3 Hk3) as (body & Hb1 & Hb2 & Hb3 & Hb4).
           exists body. cbn [List.length]. auto 6.
        -- apply Hrec; assumption.
        -- destruct (Hbase s3 Ht3 Hk3) as (body & Hb1 & Hb2 & Hb3 & Hb4).
           exists body. cbn [List.length].
           split; [assumption|]. split; [assumption|]. split; [assumption|].
           split; [assumption|].
           intros Hn _. destruct Hret as [stop Hstop]; [|exact He|discriminate].
           eapply keeps_never_restores; eassumption.
      * apply Hrec; [reflexivity | apply keeps_refl].
    + exists [Train]. rewrite app_nil_r in Ht2. rewrite Ht2, Ht1.
      split; [reflexivity|]. split; [repeat constructor|].
      split; [cbn; lia|]. split; [eapply keeps_trans; eassumption|].
      intros _ Hm. destruct (Hret2 Hm) as [f [=]].
Qed.

(** *** One restart *)

Lemma range_length (lo hi : Z) :
  List.length (range lo hi) = Z.to_nat (hi - lo).
Proof. unfold range. now rewrite length_map, length_seq. Qed.

Lemma restart_eq (s : machine) :
  let s1 := mkMachine (after_reset (self s)) (trace s ++ [Reset]) in
  restart s
  = match fst (reset s) with
    | Ok _ =>
        match epoch_loop (range 1 (epochs (self s1) + 1)) s1 with
        | (Ok _, s2) => evaluate s2
        | (Raise e, s2) => (Raise e, s2)
        end
    | Raise e => (Raise e, s1)
    end.
Proof.
  cbn zeta. unfold restart. unfold bind at 1. rewrite reset_eq. cbn [fst].
  destruct (Adam _ _ _); [|reflexivity].
  destruct (early_stopping (self s)); [|reflexivity].
  destruct (stop_checker (self s)); reflexivity.
Qed.

Lemma restart_shape (s : machine) :
  exists body,
    trace (snd (restart s))
    = trace s ++ Reset :: body ++ ending (fst (restart s))
    /\ Forall (fun e => is_reset e = false) body
    /\ (List.length (filter is_train body) <= Z.to_nat (epochs (self s)))%nat
    /\ keeps (self s) (self (snd (restart s)))
    /\ (well_formed (self s) -> never_restores (self s) ->
        usable (self s) ->
        exists f, fst (restart s) = Ok f).
Proof.
  pose proof (keeps_after_reset (self s)) as Hk1.
  pose proof (reset_returns s) as Hreset_ok.
  rewrite restart_eq. cbn zeta.
  set (s1 := mkMachine (after_reset (self s)) (trace s ++ [Reset])).
  destruct (fst (reset s)) as [[]|e].
  - destruct (epoch_loop_shape (range 1 (epochs (self s1) + 1)) s1)
      as (body & Hb & Hnr & Hlen & Hk & Hok).
    rewrite range_length in Hlen.
    assert (Hep : epochs (self s1) = epochs (self s))
      by (destruct Hk1 as (_&_&_&Hep&_); exact Hep).
    replace (epochs (self s1) + 1 - 1) with (epochs (self s)) in Hlen by lia.
    assert (Hd1 : data (self s1) = data (self s))
      by (destruct Hk1 as (Hd&_); exact Hd).
    exists body.
    destruct (epoch_loop _ s1) as [[[]|e] s2]; cbn [fst snd] in *.
    + destruct (evaluate_shape s2) as (Ht3 & Hk3 & Hret3 & _).
      rewrite Ht3, Hb. cbn [trace s1]. rewrite <- !app_assoc. cbn [app].
      split; [reflexivity|]. split; [exact Hnr|]. split; [exact Hlen|].
      assert (Hk02 : keeps (self s) (self s2))
        by (eapply keeps_trans; eassumption).
      split; [eapply keeps_trans; eassumption|].
      intros _ _ [Hm _]. apply Hret3.
      destruct Hk02 as (-> & _). exact Hm.
    + rewrite Hb. cbn [trace s1 ending].
      rewrite <- !app_assoc, app_nil_r. cbn [app].
      split; [reflexivity|]. split; [exact Hnr|]. split; [exact Hlen|].
      split; [eapply keeps_trans; eassumption|].
      intros _ Hn [Hm _]. assert (Raise e = Ok tt) as [=].
      apply Hok.
      * eapply keeps_never_restores; eassumption.
      * cbn [self s1]. cbn [self s1] in Hd1. rewrite Hd1. exact Hm.
  - exists []. cbn [fst snd ending app trace s1].
    split; [reflexivity|]. split; [constructor|].
    split; [cbn; lia|]. split; [exact Hk1|].
    intros Hwf _ [_ Ha]. specialize (Hreset_ok Hwf Ha). discriminate.
Qed.

(** *** The restart loop and [run] *)

Lemma restart_loop_cons (i : Z) (todo : list Z)
    (val_acc_list test_acc_list : list float) (s : machine) :
  restart_loop (i :: todo) val_acc_list test_acc_list s
  = match restart s with
    | (Ok evals, s1) =>
        restart_loop todo (val_acc_list ++ [val_acc evals])
                     (test_acc_list ++ [test_acc evals]) s1
    | (Raise e, s1) => (Raise e, s1)
    end.
Proof. reflexivity. Qed.

Lemma restart_loop_shape (todo : list Z) :
  forall (val_acc_list test_acc_list : list float) (s : machine),
  let out := restart_loop todo val_acc_list test_acc_list s in
  exists tr counts,
    trace (snd out) = trace s ++ tr
    /\ keeps (self s) (self (snd out))
    /\ (restarts tr <= List.length todo)%nat
    /\ (forall n, trains_from n tr = close_count n ++ counts)
    /\ List.length counts = restarts tr
    /\ Forall (fun k => (k <= Z.to_nat (epochs (self s)))%nat) counts
    /\ (forall lists, fst out = Ok lists ->
          exists fs,
            fst lists = val_acc_list ++ map val_acc fs
            /\ snd lists = test_acc_list ++ map test_acc fs
            /\ List.length fs = List.length todo
            /\ restarts tr = List.length todo
            /\ forall last, finals_from last tr = close last ++ fs)
    /\ (well_formed (self s) -> never_restores (self s) ->
        usable (self s) ->
        exists lists, fst out = Ok lists).
Proof.
  induction todo as [|i todo IH]; intros va ta s; cbn zeta.
  - exists [], []. cbn. rewrite app_nil_r.
    split; [reflexivity|]. split; [apply keeps_refl|]. split; [lia|].
    split; [intros n; now rewrite app_nil_r|]. split; [reflexivity|].
    split; [constructor|]. split; [|eauto].
    intros lists [= <-]. exists []. cbn. rewrite !app_nil_r.
    repeat split. intros last. now rewrite app_nil_r.
  - rewrite restart_loop_cons.
    destruct (restart_shape s) as (body & Hb & Hnr & Hlen & Hk & Hok).
    destruct (restart s) as [[f|e] s1]; cbn [fst snd ending] in *.
    + destruct (IH (va ++ [val_acc f]) (ta ++ [test_acc f]) s1)
        as (tr & counts & Ht & Hk' & Hre & Htr & Hcl & Hbd & Hfs & Hok').
      assert (Hep : epochs (self s1) = epochs (self s))
        by (destruct Hk as (_&_&_&Hep&_); exact Hep).
      exists ((Reset :: body ++ [Evaluate f]) ++ tr),
             (List.length (filter is_train body) :: counts).
      split; [rewrite Ht, Hb; now rewrite <- !app_assoc|].
      split; [eapply keeps_trans; eassumption|].
      assert (Hone : restarts (Reset :: body ++ [Evaluate f]) = 1%nat).
      { change (Reset :: body ++ [Evaluate f])
          with ([Reset] ++ body ++ [Evaluate f]).
        rewrite !restarts_app, (TraceFacts.restarts_body body Hnr).
        reflexivity. }
      rewrite restarts_app, Hone.
      split; [cbn [List.length]; lia|].
      split.
      { intros n. cbn [app trains_from]. rewrite <- app_assoc. cbn [app].
        rewrite (TraceFacts.trains_from_body body _ Hnr). cbn [trains_from].
        rewrite Htr. reflexivity. }
      split; [cbn [List.length]; lia|].
      split; [constructor; [exact Hlen | now rewrite <- Hep]|].
      split.
      * intros lists Hl. destruct (Hfs lists Hl)
          as (fs & Hva & Hta & Hlf & Hrs & Hfin).
        exists (f :: fs). cbn [map List.length].
        rewrite Hva, Hta, <- !app_assoc. cbn [app].
        split; [reflexivity|]. split; [reflexivity|].
        split; [lia|]. split; [lia|].
        intros last. cbn [finals_from]. rewrite <- app_assoc. cbn [app].
        rewrite (TraceFacts.finals_from_body body _ _ Hnr), Hfin.
        reflexivity.
      * intros Hwf Hn Hu. apply Hok'.
        -- eapply keeps_well_formed; eassumption.
        -- eapply keeps_never_restores; eassumption.
        -- eapply keeps_usable; eassumption.
    + exists (Reset :: body), [List.length (filter is_train body)].
      rewrite app_nil_r in Hb.
      split; [exact Hb|]. split; [exact Hk|].
      assert (Hone : restarts (Reset :: body) = 1%nat).
      { change (Reset :: body) with ([Reset] ++ body).
        rewrite restarts_app, (TraceFacts.restarts_body body Hnr).
        reflexivity. }
      rewrite Hone.
      split; [cbn [List.length]; lia|].
      split.
      { intros n. cbn [trains_from].
        rewrite <- (app_nil_r body) at 1.
        rewrite (TraceFacts.trains_from_body body _ Hnr). reflexivity. }
      split; [reflexivity|].
      split; [repeat constructor; exact Hlen|].
      split; [intros lists [=]|].
      intros Hwf Hn Hu. destruct (Hok Hwf Hn Hu) as [f [=]].
Qed.

End WithTorch.
End TrainerFacts.

Module TrainerProperties.
Section WithTorch.
Context {T : Torch}.
Import Trainer Trace Spec TraceFacts TrainerFacts.

Lemma run_eq (s : machine) :
  run s
  = match restart_loop (range 0 (niter (self s))) [] [] s with
    | (Ok lists, s') =>
        (Ok (mkStats (Numpy.mean (fst lists)) (Numpy.mean (snd lists))
                     (Numpy.std (snd lists))), s')
    | (Raise e, s') => (Raise e, s')
    end.
Proof. reflexivity. Qed.

(** Whatever way [run] ends, it begins at most [niter] restarts and no
    restart makes more than [epochs] calls of [train]. *)
Lemma run_loops_bounded (s : machine) :
  exists tr,
    trace (snd (run s)) = trace s ++ tr
    /\ (restarts tr <= Z.to_nat (niter (self s)))%nat
    /\ List.length (trains tr) = restarts tr
    /\ Forall (fun k => (k <= Z.to_nat (epochs (self s)))%nat) (trains tr).
Proof.
  rewrite run_eq.
  destruct (restart_loop_shape (range 0 (niter (self s))) [] [] s)
    as (tr & counts & Ht & _ & Hre & Htr & Hlen & Hbd & _).
  cbn zeta in *. rewrite range_length, Z.sub_0_r in Hre.
  exists tr. unfold trains. rewrite Htr. cbn [close_count app].
  destruct (restart_loop _ _ _ s) as [[lists|e] s1]; cbn [fst snd] in *; auto.
Qed.

(** C1, amended. When [run] returns, it has made [niter] restarts and the
    dict holds the mean of the final validation accuracies of the
    restarts, the mean of their final test accuracies and the standard
    deviation of their final test accuracies. It does return when the
    trainer has its stop checker if early stopping is on, no mask of the
    dataset is empty, the optimizer accepts the learning rate and the
    weight decay, and no [check] call can restore a checkpoint (early
    stopping off, or [save_model] off). *)
Theorem run_statistics (s : machine) :
  (forall stats s', run s = (Ok stats, s') ->
     exists tr,
       trace s' = trace s ++ tr
       /\ restarts tr = Z.to_nat (niter (self s))
       /\ List.length (finals tr) = Z.to_nat (niter (self s))
       /\ stats = mkStats (Numpy.mean (map val_acc (finals tr)))
                          (Numpy.mean (map test_acc (finals tr)))
                          (Numpy.std (map test_acc (finals tr))))
  /\ (well_formed (self s) -> never_restores (self s) -> usable (self s) ->
      exists stats s', run s = (Ok stats, s')).
Proof.
  rewrite run_eq.
  destruct (restart_loop_shape (range 0 (niter (self s))) [] [] s)
    as (tr & counts & Ht & _ & _ & _ & _ & _ & Hfs & Hok).
  cbn zeta in *. rewrite range_length, Z.sub_0_r in Hfs.
  destruct (restart_loop _ _ _ s) as [[lists|e] s1]; cbn [fst snd] in *.
  - split; [|eauto].
    intros stats s' [= <- <-].
    destruct (Hfs lists eq_refl) as (fs & Hva & Hta & Hlen & Hre & Hfin).
    exists tr. unfold finals. rewrite Hfin. cbn [close app] in *.
    rewrite Hva, Hta. auto.
  - split; [intros stats s' [=]|].
    intros Hwf Hn Hu. destruct (Hok Hwf Hn Hu) as [lists [=]].
Qed.

(** C7. [reset] leaves learning rate, weight decay, epochs, number of
    restarts, dataset and the early-stopping flag as they are, and every
    restart begins with it. When the optimizer accepts the hyperparameters
    (and the stop checker is there if early stopping is on), [reset]
    returns, installs the newly built optimizer, re-initialises the
    parameters of the model and, with early stopping on, leaves the stop
    checker as new: counter 0, best loss infinity, best accuracy 0, no
    checkpoint, configuration untouched; with early stopping off the stop
    checker is not touched. *)
Theorem reset_starts_fresh (s : machine) :
  let s' := snd (reset s) in
  (lr (self s') = lr (self s)
   /\ weight_decay (self s') = weight_decay (self s)
   /\ epochs (self s') = epochs (self s)
   /\ niter (self s') = niter (self s)
   /\ data (self s') = data (self s)
   /\ early_stopping (self s') = early_stopping (self s)
   /\ trace s' = trace s ++ [Reset]
   /\ exists rest, trace (snd (restart s)) = trace s' ++ rest)
  /\ forall o,
       Adam (model (self s)) (lr (self s)) (weight_decay (self s)) = Ok o ->
       well_formed (self s) ->
       fst (reset s) = Ok tt
       /\ optimizer (self s') = o
       /\ model (self s') = reset_parameters (model_to_device (model (self s)))
       /\ (early_stopping (self s) = false ->
           stop_checker (self s') = stop_checker (self s))
       /\ (early_stopping (self s) = true ->
           exists sc,
             stop_checker (self s) = Some sc
             /\ stop_checker (self s')
                = Some (EarlyStopping.mk
                          (EarlyStopping.patience sc)
                          (EarlyStopping.use_loss sc)
                          (EarlyStopping.use_acc sc)
                          (EarlyStopping.save_model sc)
                          (EarlyStopping.verbose sc) 0 inf zero None)).
Proof.
  cbn zeta. split.
  - destruct (keeps_after_reset (self s)) as (Hd&Hlr&Hwd&Hep&_&Hni&Hes&_).
    destruct (restart_shape s) as (body & Hb & _).
    rewrite reset_eq. cbn [snd self trace].
    repeat (split; [assumption || reflexivity|]).
    exists (body ++ ending (fst (restart s))).
    rewrite Hb, <- app_assoc. reflexivity.
  - intros o Ho Hwf. rewrite reset_eq. cbn [fst snd self].
    unfold after_reset. rewrite Ho.
    destruct (early_stopping (self s)) eqn:He.
    + destruct (Hwf He) as [sc Hsc]. rewrite Hsc. cbn.
      split; [reflexivity|]. split; [reflexivity|]. split; [reflexivity|].
      split; [discriminate|].
      intros _. exists sc. split; reflexivity.
    + cbn.
      split; [reflexivity|]. split; [reflexivity|]. split; [reflexivity|].
      split; [reflexivity | discriminate].
Qed.

(** C5. When [check] returns true with [save_model] on, before it returns
    the model has been given, by [load_state_dict], the checkpoint that is
    kept: the copy taken in this very call if this evaluation is the best
    one, the one from the latest earlier save otherwise. In [Trainer.run]
    the model so restored is the trainer's own, and the epoch loop is left
    at once, so that the restart ends with the weights of the checkpoint
    and not with those of the last epoch. *)
Theorem stop_restores_checkpoint :
  (forall (sc sc' : EarlyStopping.t) (evals : Evals) (model model' : Model)
          (epoch : Z),
     EarlyStopping.check sc evals model epoch = (Ok true, sc', model') ->
     EarlyStopping.save_model sc = true ->
     exists sd,
       EarlyStopping.state_dict sc' = Some sd
       /\ model' = model_load_state_dict sd model
       /\ Some sd = (if is_best sc evals then Some (model_state_dict model)
                     else EarlyStopping.state_dict sc))
  /\ (forall (s s' : machine) (sc : EarlyStopping.t) (evals : Evals)
             (epoch : Z),
        stop_checker (self s) = Some sc ->
        EarlyStopping.save_model sc = true ->
        stop_check evals epoch s = (Ok true, s') ->
        exists sd sc',
          stop_checker (self s') = Some sc'
          /\ EarlyStopping.state_dict sc' = Some sd
          /\ model (self s') = model_load_state_dict sd (model (self s))
          /\ Some sd = (if is_best sc evals
                        then Some (model_state_dict (model (self s)))
                        else EarlyStopping.state_dict sc))
  /\ (forall (s s2 s3 : machine) (evals : Evals) (epoch : Z)
             (todo : list Z),
        evaluate (snd (train s)) = (Ok evals, s2) ->
        early_stopping (self s2) = true ->
        stop_check evals epoch s2 = (Ok true, s3) ->
        epoch_loop (epoch :: todo) s = (Ok tt, s3)).
Proof.
  split; [|split].
  - intros sc sc' evals model model' epoch Hc Hs.
    exact (EarlyStoppingProperties.check_restores_kept
             sc sc' evals model model' epoch Hc Hs).
  - intros s s' sc evals epoch Hsc Hs Hstop.
    rewrite stop_check_eq, Hsc in Hstop. cbn zeta in Hstop.
    destruct (EarlyStopping.check sc evals (model (self s)) epoch)
      as [[r sc'] m'] eqn:Hc.
    cbn [fst snd] in Hstop. injection Hstop as -> <-.
    destruct (EarlyStoppingProperties.check_restores_kept
                sc sc' evals (model (self s)) m' epoch Hc Hs)
      as (sd & Hsd & Hm & Hbest).
    exists sd, sc'. cbn. auto.
  - intros s s2 s3 evals epoch todo Hev He Hstop.
    rewrite epoch_loop_cons, Hev, He, Hstop. reflexivity.
Qed.

End WithTorch.
End TrainerProperties.

(** ** The code at concrete inputs *)

Module Runs.
Import Trainer Trace Spec.

Example toy_trainer_init :
  Trainer.init (T := Toy.torch) (0, 0) 1 half zero 1 2 true 10
               true false false false
  = Ok (Toy.trainer 1 1 2 10 true false false).
Proof. reflexivity. Qed.

Lemma toy_well_formed d epochs niter patience use_loss use_acc save_model :
  well_formed (Toy.trainer d epochs niter patience use_loss use_acc save_model).
Proof. intros _. eexists. reflexivity. Qed.

Lemma toy_never_restores d epochs niter patience use_loss use_acc :
  never_restores (Toy.trainer d epochs niter patience use_loss use_acc false).
Proof. intros _. eexists. split; reflexivity. Qed.

Lemma toy_usable d epochs niter patience use_loss use_acc save_model :
  usable (Toy.trainer d epochs niter patience use_loss use_acc save_model).
Proof.
  split.
  - intros key. cbn. discriminate.
  - intros m. exists tt. reflexivity.
Qed.

(** C1 as stated fails: two restarts with final test accuracies 0 and 1
    give a ['test_acc_std'] of 0.5, and the variance of 0 and 1 is 0.25. *)
Lemma run_std_is_not_variance :
  exists stats s',
    Trainer.run (Toy.machine 1 1 2 10 true false false) = (Ok stats, s')
    /\ map test_acc (finals (trace s')) = [zero; one]
    /\ stats_test_acc_std stats = half
    /\ Numpy.var (map test_acc (finals (trace s'))) = quarter
    /\ stats_test_acc_std stats
       <> Numpy.var (map test_acc (finals (trace s'))).
Proof.
  eexists. eexists. split; [vm_compute; reflexivity|].
  split; [vm_compute; reflexivity|].
  split; [vm_compute; reflexivity|].
  split; [vm_compute; reflexivity|].
  vm_compute. discriminate.
Qed.

Lemma run_statistics_witness :
  exists stats s' tr,
    Trainer.run (Toy.machine 1 1 2 10 true false false) = (Ok stats, s')
    /\ trace s' = tr
    /\ restarts tr = 2%nat
    /\ stats = mkStats (Numpy.mean (map val_acc (finals tr)))
                       (Numpy.mean (map test_acc (finals tr)))
                       (Numpy.std (map test_acc (finals tr))).
Proof.
  destruct (TrainerProperties.run_statistics (T := Toy.torch)
              (Toy.machine 1 1 2 10 true false false)) as [Hstats Hreturns].
  destruct (Hreturns (toy_well_formed _ _ _ _ _ _ _)
                     (toy_never_restores _ _ _ _ _ _)
                     (toy_usable _ _ _ _ _ _ _))
    as (stats & s' & Hrun).
  destruct (Hstats stats s' Hrun) as (tr & Htr & Hre & _ & Hst).
  exists stats, s', tr. auto.
Defined.

(** [reset] on the trainer in the middle of a restart: the stop checker
    that had seen the accuracy 1 and kept a checkpoint is as new. *)
Lemma reset_starts_fresh_witness :
  fst (Trainer.reset Toy.midway_machine) = Ok tt
  /\ optimizer (self (snd (Trainer.reset Toy.midway_machine))) = tt
  /\ model (self (snd (Trainer.reset Toy.midway_machine))) = (2, 0)
  /\ stop_checker (self (snd (Trainer.reset Toy.midway_machine)))
     = Some (Toy.acc_stopper 1).
Proof.
  destruct (TrainerProperties.reset_starts_fresh (T := Toy.torch)
              Toy.midway_machine) as [_ Hfresh].
  destruct (Hfresh tt eq_refl) as (Hok & Hopt & Hmodel & _ & Hsc).
  - intros _. eexists. reflexivity.
  - destruct (Hsc eq_refl) as (sc & Hbefore & Hafter).
    injection Hbefore as <-.
    split; [exact Hok|]. split; [exact Hopt|]. split; [exact Hmodel|].
    exact Hafter.
Defined.

Lemma reset_restores_fresh_witness :
  EarlyStopping.reset (EarlyStopping.checks (Toy.acc_stopper 1) Toy.two_calls)
  = Toy.acc_stopper 1
  /\ EarlyStopping.reset (Toy.acc_stopper 1) = Toy.acc_stopper 1.
Proof.
  apply (EarlyStoppingProperties.reset_restores_fresh (T := Toy.torch)
           1 false false true true).
  reflexivity.
Defined.

Lemma best_metrics_tracked_witness :
  EarlyStopping.best_val_loss
    (EarlyStopping.checks (Toy.dual_stopper 1) Toy.two_calls)
  = fold_left pymin [one; one] inf
  /\ EarlyStopping.best_val_acc
       (EarlyStopping.checks (Toy.dual_stopper 1) Toy.two_calls)
     = fold_left pymax [one; zero] zero.
Proof.
  destruct (EarlyStoppingProperties.best_metrics_tracked (T := Toy.torch)
              1 false true true true (Toy.dual_stopper 1) Toy.two_calls
              eq_refl) as [Hloss Hacc].
  split; [apply (Hloss eq_refl) | apply (Hacc eq_refl)].
Defined.

Lemma dual_criterion_checkpoint_witness :
  let self' :=
    snd (fst (EarlyStopping.check (Toy.dual_stopper 1) (Toy.evals one one)
                                  (1, 1) 1)) in
  EarlyStopping.state_dict self' = Some (1, 1)
  /\ EarlyStopping.counter self' = 0.
Proof.
  apply (EarlyStoppingProperties.dual_criterion_checkpoint (T := Toy.torch)
           (Toy.dual_stopper 1) (Toy.evals one one) (1, 1) 1);
    reflexivity.
Defined.

(** The stop on the trainer in the middle of a restart: one more epoch
    takes the weights from [(1, 1)] to [(1, 2)], the evaluation misses, the
    patience of 1 is reached and the weights go back to the checkpoint
    [(1, 1)], with which the epoch loop ends. *)
Lemma stop_restores_checkpoint_witness :
  (exists sd : Z * Z,
     EarlyStopping.state_dict
       (EarlyStopping.set_counter 1 (Toy.acc_stopper_seen 1)) = Some sd
     /\ (1, 1) = model_load_state_dict (Torch := Toy.torch) sd (1, 2)
     /\ Some sd = Some (1, 1))
  /\ (exists (sd : Z * Z) sc',
        stop_checker (self Toy.midway_stopped) = Some sc'
        /\ EarlyStopping.state_dict sc' = Some sd
        /\ model (self Toy.midway_stopped)
           = model_load_state_dict (Torch := Toy.torch) sd
               (model (self Toy.midway_evaluated))
        /\ Some sd = Some (1, 1))
  /\ Trainer.epoch_loop [2; 3] Toy.midway_machine
     = (Ok tt, Toy.midway_stopped).
Proof.
  destruct (TrainerProperties.stop_restores_checkpoint (T := Toy.torch))
    as (Hcheck & Hstop & Hloop).
  split; [|split].
  - apply (Hcheck (Toy.acc_stopper_seen 1)
                  (EarlyStopping.set_counter 1 (Toy.acc_stopper_seen 1))
                  (Toy.evals one zero) ((1, 2) : @Model Toy.torch)
                  ((1, 1) : @Model Toy.torch) 2);
      reflexivity.
  - apply (Hstop Toy.midway_evaluated Toy.midway_stopped
                 (Toy.acc_stopper_seen 1) Toy.midway_evals 2);
      reflexivity.
  - apply (Hloop Toy.midway_machine Toy.midway_evaluated Toy.midway_stopped
                 Toy.midway_evals 2 [3]);
      reflexivity.
Defined.

(** C4 at the failing input: an accuracy-only object with [save_model] on
    and patience 1, first call, validation accuracy 0. The counter
    reaches the patience and [check] raises instead of returning true. *)
Theorem check_raises_when_patience_is_reached :
  let out := EarlyStopping.check (Toy.acc_stopper 1) (Toy.evals one zero)
                                 (1, 1) 1 in
  EarlyStopping.counter (snd (fst out)) = 1
  /\ EarlyStopping.patience (snd (fst out)) = 1
  /\ EarlyStopping.state_dict (snd (fst out)) = None
  /\ fst (fst out) = Raise TypeError.
Proof. repeat split. Qed.

(** C10 at the failing input: the same object with patience 0, first
    call, validation accuracy 0. [check] raises instead of returning
    true. *)
Theorem check_raises_at_patience_zero :
  EarlyStopping.patience (Toy.acc_stopper 0) = 0
  /\ fst (fst (EarlyStopping.check (Toy.acc_stopper 0) (Toy.evals one zero)
                                   (1, 1) 1))
     = Raise TypeError.
Proof. repeat split. Qed.

(** C6 at the failing input: two restarts asked for, accuracy-only early
    stopping with [save_model] on and patience 1, a model that gets no
    validation node right. [run] raises in the first epoch of the first
    restart. *)
Theorem run_raises_in_first_restart :
  let out := Trainer.run (Toy.machine 0 3 2 1 false true true) in
  niter (self (snd out)) = 2
  /\ fst out = Raise TypeError
  /\ restarts (trace (snd out)) = 1%nat
  /\ trains (trace (snd out)) = [1%nat].
Proof. vm_compute. repeat split. Qed.

End Runs.

(** ** More on EarlyStopping: errors, misses, what a call leaves alone *)

Module EarlyStoppingMore.
Section WithTorch.
Context {T : Torch}.
Import EarlyStopping Spec Calls FloatOrder EarlyStoppingFacts.

Ltac fields := cbn -[pymin pymax lt le gt ge] in *.

Lemma le_inf (x : float) : is_nan x = false -> le x inf = true.
Proof. unfold inf. order. Qed.

Lemma set_counter_same (self : t) : set_counter (counter self) self = self.
Proof. now destruct self. Qed.

(** A call that brings no improvement only moves the counter. *)
Lemma update_miss (self : t) (evals : Evals) (model : Model) :
  use_loss self || use_acc self = true ->
  improves self evals = false ->
  update self evals model = set_counter (counter self + 1) self.
Proof.
  unfold update, improves.
  destruct (use_loss self), (use_acc self); cbn [andb orb];
    try discriminate; intros _ ->; reflexivity.
Qed.

Lemma improves_set_counter (self : t) (c : Z) (evals : Evals) :
  improves (set_counter c self) evals = improves self evals.
Proof. reflexivity. Qed.

Lemma update_save_model (self : t) (evals : Evals) (model : Model) :
  save_model (update self evals model) = save_model self.
Proof. now destruct (update_config self evals model) as (_&_&_&->&_). Qed.

Lemma update_keeps_checkpoint (self : t) (evals : Evals) (model : Model) :
  state_dict self <> None -> state_dict (update self evals model) <> None.
Proof.
  intros H. rewrite update_state_dict.
  destruct (save_model self && is_best self evals); [discriminate | exact H].
Qed.

Lemma check_returns (self : t) (evals : Evals) (model : Model) (epoch : Z) :
  save_model self = false \/ state_dict self <> None ->
  fst (fst (check self evals model epoch))
  = Ok (patience self <=? counter (update self evals model)).
Proof.
  intros H. rewrite check_result. cbn zeta.
  destruct (_ <=? _); [|reflexivity].
  destruct H as [-> | H]; [reflexivity|].
  apply (update_keeps_checkpoint self evals model) in H.
  destruct (save_model self); [|reflexivity].
  destruct (state_dict (update self evals model)); [reflexivity|].
  now contradiction H.
Qed.

Lemma safe_results (calls : list (Evals * Model * Z)) : forall self : t,
  save_model self = false \/ state_dict self <> None ->
  Forall (fun r => returned r = true) (check_results self calls).
Proof.
  induction calls as [|[[ev m] ep] calls IH]; intros self H; cbn;
    constructor.
  - now rewrite check_returns.
  - apply IH. rewrite check_self, update_save_model.
    destruct H as [H|H]; [now left | right].
    now apply update_keeps_checkpoint.
Qed.

(** X1. [check] raises in one situation only: the counter has reached the
    patience, [save_model] is on, no checkpoint was kept before the call
    and this call does not save one. The exception is the one of
    [load_state_dict(None)]. *)
Theorem check_raises_iff (self : t) (evals : Evals) (model : Model)
    (epoch : Z) (e : exn) :
  fst (fst (check self evals model epoch)) = Raise e
  <-> e = TypeError
      /\ save_model self = true
      /\ state_dict self = None
      /\ is_best self evals = false
      /\ patience self <= counter (snd (fst (check self evals model epoch))).
Proof.
  rewrite check_self, check_result, update_state_dict. cbn zeta.
  destruct (patience self <=? counter (update self evals model)) eqn:Hp.
  - apply Z.leb_le in Hp.
    destruct (save_model self); cbn [andb].
    + destruct (is_best self evals).
      * split; [discriminate | intros (_&_&_&[=]&_)].
      * destruct (state_dict self) as [sd|].
        -- split; [discriminate | intros (_&_&[=]&_)].
        -- split; [intros [= <-]; auto | intros (->&_); reflexivity].
    + split; [discriminate | intros (_&[=]&_)].
  - apply Z.leb_gt in Hp. split; [discriminate|]. intros (_&_&_&_&H). lia.
Qed.

(** X2. Once a checkpoint is kept, or with [save_model] off, no later
    [check] call raises, whatever the evaluations; and a kept checkpoint is
    never dropped by [check]. *)
Theorem checkpoint_kept_no_raise (self : t)
    (calls : list (Evals * Model * Z)) :
  save_model self = false \/ state_dict self <> None ->
  Forall (fun r => returned r = true) (check_results self calls)
  /\ (state_dict self <> None -> state_dict (checks self calls) <> None).
Proof.
  intros H. split; [now apply safe_results|]. clear H.
  revert self. induction calls as [|[[ev m] ep] calls IH]; intros self H.
  - exact H.
  - cbn. apply IH. rewrite check_self. now apply update_keeps_checkpoint.
Qed.

(** X3. With both criteria on, a new object whose first evaluation has a
    loss that is a number and an accuracy of at least 0 never raises: that
    first call saves the checkpoint that every later stop restores. *)
Theorem dual_mode_never_raises (patience : Z) (verbose save_model : bool)
    (self : t) (evals : Evals) (model : Model) (epoch : Z)
    (calls : list (Evals * Model * Z)) :
  init patience verbose true true save_model = Ok self ->
  is_nan (val_loss evals) = false ->
  ge (val_acc evals) zero = true ->
  Forall (fun r => returned r = true)
         (check_results self ((evals, model, epoch) :: calls)).
Proof.
  intros [= <-] Hloss Hacc. cbn [check_results].
  set (self := mk patience true true save_model verbose 0 inf zero None).
  assert (Hbest : is_best self evals = true).
  { unfold is_best. cbn. fold inf zero. rewrite (le_inf _ Hloss).
    exact Hacc. }
  assert (Hsd : save_model = true ->
                state_dict (update self evals model) <> None).
  { intros ->. rewrite update_state_dict, Hbest. discriminate. }
  constructor.
  - rewrite check_result. cbn zeta.
    destruct (_ <=? _); [|reflexivity].
    change (EarlyStopping.save_model self) with save_model.
    destruct save_model; [|reflexivity].
    specialize (Hsd eq_refl).
    destruct (state_dict (update self evals model)); [reflexivity|].
    now contradiction Hsd.
  - apply safe_results. rewrite check_self, update_save_model.
    destruct save_model; [right; now apply Hsd | now left].
Qed.

(** X4. A run of evaluations none of which improves on the best ones
    changes nothing but the counter, which grows by their number: the best
    loss, the best accuracy and the checkpoint stay. *)
Theorem misses_only_count (self : t) (calls : list (Evals * Model * Z)) :
  use_loss self || use_acc self = true ->
  Forall (fun c => improves self (fst (fst c)) = false) calls ->
  checks self calls
  = set_counter (counter self + Z.of_nat (List.length calls)) self.
Proof.
  intros Hflag. revert self Hflag.
  induction calls as [|[[ev m] ep] calls IH]; intros self Hflag Hmiss.
  - cbn. now rewrite Z.add_0_r, set_counter_same.
  - inversion Hmiss as [|c cs Hc Hcs]; subst. cbn [fst] in Hc.
    cbn [checks fold_left]. rewrite check_self, (update_miss _ _ _ Hflag Hc).
    change (fold_left _ calls ?s) with (checks s calls).
    rewrite IH; [| exact Hflag | exact Hcs].
    unfold set_counter. cbn. f_equal. lia.
Qed.

(** X5. Over such a run, when no restore can fail ([save_model] off or a
    checkpoint kept), the [i]-th call returns true exactly when the counter
    it started from plus [i] has reached the patience: the stop comes with
    the patience-th miss in a row and with every miss after it. *)
Theorem stop_after_patience_misses (self : t)
    (calls : list (Evals * Model * Z)) :
  use_loss self || use_acc self = true ->
  save_model self = false \/ state_dict self <> None ->
  Forall (fun c => improves self (fst (fst c)) = false) calls ->
  check_results self calls
  = map (fun i => Ok (patience self <=? counter self + i))
        (countup (List.length calls)).
Proof.
  intros Hflag. revert self Hflag.
  induction calls as [|[[ev m] ep] calls IH]; intros self Hflag Hsafe Hmiss;
    [reflexivity|].
  inversion Hmiss as [|c cs Hc Hcs]; subst. cbn [fst] in Hc.
  cbn [check_results List.length]. unfold countup. cbn [seq map].
  rewrite check_returns by exact Hsafe.
  rewrite check_self, (update_miss _ _ _ Hflag Hc). cbn [counter set_counter].
  f_equal.
  rewrite IH; [| exact Hflag | exact Hsafe | exact Hcs].
  unfold countup. rewrite <- (seq_shift (List.length calls) 1), !map_map.
  cbn [counter set_counter patience].
  apply map_ext. intros i. do 2 f_equal. lia.
Qed.

(** X6. An evaluation that improves on the best ones puts the counter to
    0, whatever the patience; with a positive patience [check] then returns
    false and does not touch the model. *)
Theorem improvement_goes_on (self : t) (evals : Evals) (model : Model)
    (epoch : Z) :
  use_loss self || use_acc self = true ->
  improves self evals = true ->
  counter (update self evals model) = 0
  /\ (0 < patience self ->
      check self evals model epoch
      = (Ok false, update self evals model, model)).
Proof.
  intros Hflag Himp.
  assert (Hc : counter (update self evals model) = 0)
    by (now rewrite update_counter, Himp).
  split; [exact Hc|]. intros Hp.
  unfold check, stop_or_go.
  destruct (update_config self evals model) as (-> & _).
  rewrite Hc. destruct (patience self <=? 0) eqn:E; [|reflexivity].
  apply Z.leb_le in E. lia.
Qed.

(** X7. With [save_model] off, [check] never writes to the model and never
    keeps a checkpoint. *)
Theorem no_save_model_no_restore (self : t) (evals : Evals) (model : Model)
    (epoch : Z) (calls : list (Evals * Model * Z)) :
  save_model self = false ->
  snd (check self evals model epoch) = model
  /\ state_dict (checks self calls) = state_dict self.
Proof.
  intros Hs. split.
  - unfold check, stop_or_go. rewrite update_save_model, Hs.
    now destruct (_ <=? _).
  - revert self Hs. induction calls as [|[[ev m] ep] calls IH]; intros self Hs;
      [reflexivity|].
    cbn. rewrite check_self.
    change (fold_left _ calls ?s) with (checks s calls).
    rewrite IH by now rewrite update_save_model.
    now rewrite update_state_dict, Hs.
Qed.

(** X8. A criterion that is off is not tracked: with [use_acc] off the best
    validation accuracy never moves, with [use_loss] off the best
    validation loss never moves. *)
Theorem unused_criterion_untouched (self : t)
    (calls : list (Evals * Model * Z)) :
  (use_acc self = false -> best_val_acc (checks self calls) = best_val_acc self)
  /\ (use_loss self = false ->
      best_val_loss (checks self calls) = best_val_loss self).
Proof.
  assert (Hstep : forall (s : t) ev m,
            (use_acc s = false ->
             best_val_acc (update s ev m) = best_val_acc s)
            /\ (use_loss s = false ->
                best_val_loss (update s ev m) = best_val_loss s)).
  { intros s ev m. unfold update, save. fields.
    split; intros ->; rewrite ?andb_false_r; cbn [andb].
    - destruct (use_loss s); [|reflexivity].
      destruct (lt _ _), (save_model s); reflexivity.
    - destruct (use_acc s); [|reflexivity].
      destruct (gt _ _), (save_model s); reflexivity. }
  revert self. induction calls as [|[[ev m] ep] calls IH]; intros self.
  - split; reflexivity.
  - cbn. rewrite check_self.
    change (fold_left _ calls ?s) with (checks s calls).
    destruct (IH (update self ev m)) as [IHa IHl].
    destruct (Hstep self ev m) as [Ha Hl].
    destruct (update_config self ev m) as (_ & Hul & Hua & _).
    split; intros H.
    + rewrite IHa by congruence. now apply Ha.
    + rewrite IHl by congruence. now apply Hl.
Qed.

Lemma update_counter_bounds (self : t) (evals : Evals) (model : Model) :
  0 <= counter self ->
  0 <= counter (update self evals model) <= counter self + 1.
Proof.
  intros H. unfold update, save. fields.
  repeat match goal with
  | |- context [if ?b then _ else _] => destruct b
  end; cbn; lia.
Qed.

Lemma checks_counter_bounds (calls : list (Evals * Model * Z)) :
  forall self : t,
  0 <= counter self ->
  0 <= counter (checks self calls)
    <= counter self + Z.of_nat (List.length calls).
Proof.
  induction calls as [|[[ev m] ep] calls IH]; intros self H.
  - cbn. lia.
  - cbn [checks fold_left]. rewrite check_self.
    change (fold_left _ calls ?s) with (checks s calls).
    pose proof (update_counter_bounds self ev m H) as Hu.
    specialize (IH (update self ev m) (proj1 Hu)).
    cbn [List.length]. lia.
Qed.

(** X15. The counter of an object built by the constructor is never
    negative and never exceeds the number of [check] calls made. *)
Theorem counter_within_calls (patience : Z)
    (verbose use_loss use_acc save_model : bool) (self : t)
    (calls : list (Evals * Model * Z)) :
  init patience verbose use_loss use_acc save_model = Ok self ->
  0 <= counter (checks self calls) <= Z.of_nat (List.length calls).
Proof.
  unfold init. destruct (use_loss || use_acc); [|discriminate].
  intros [= <-].
  apply (checks_counter_bounds calls
           (mk patience use_loss use_acc save_model verbose 0 inf zero None)).
  cbn. lia.
Qed.

(** X16. When no restore can fail ([save_model] off, or a checkpoint
    kept), [check] returns, and it returns true exactly when the counter it
    leaves has reached the patience. *)
Theorem check_stops_iff (self : t) (evals : Evals) (model : Model)
    (epoch : Z) :
  save_model self = false \/ state_dict self <> None ->
  exists stop,
    fst (fst (check self evals model epoch)) = Ok stop
    /\ (stop = true
        <-> patience self <= counter (snd (fst (check self evals model epoch)))).
Proof.
  intros H. rewrite check_self, (check_returns _ _ _ _ H).
  eexists. split; [reflexivity|]. apply Z.leb_le.
Qed.

(** X17. With a patience of 0 or less and [save_model] off, every [check]
    call on an object built by the constructor returns true, improvement or
    not. *)
Theorem no_patience_always_stops (patience : Z)
    (verbose use_loss use_acc : bool) (self : t)
    (calls : list (Evals * Model * Z)) :
  init patience verbose use_loss use_acc false = Ok self ->
  patience <= 0 ->
  Forall (fun r => r = Ok true) (check_results self calls).
Proof.
  unfold init. destruct (use_loss || use_acc); [|discriminate].
  intros [= <-] Hp.
  set (self := mk patience use_loss use_acc false verbose 0 inf zero None).
  assert (Hinv : EarlyStopping.patience self <= 0
                 /\ save_model self = false /\ 0 <= counter self)
    by (cbn; repeat split; lia).
  clearbody self. revert self Hinv.
  induction calls as [|[[ev m] ep] calls IH]; intros self (Hpat & Hs & Hc);
    cbn [check_results]; constructor.
  - rewrite check_returns by now left.
    pose proof (update_counter_bounds self ev m Hc) as Hu.
    f_equal. apply Z.leb_le. lia.
  - apply IH. rewrite check_self.
    destruct (update_config self ev m) as (-> & _ & _ & -> & _).
    pose proof (update_counter_bounds self ev m Hc) as Hu.
    repeat split; [exact Hpat | exact Hs | lia].
Qed.

End WithTorch.
End EarlyStoppingMore.

(** ** More on Trainer: construction, edge schedules, failures *)

Module TrainerMore.
Section WithTorch.
Context {T : Torch}.
Import Trainer Trace Spec Calls TraceFacts TrainerFacts.

Lemma range_nil (lo hi : Z) : hi <= lo -> range lo hi = [].
Proof.
  intros H. unfold range. replace (Z.to_nat (hi - lo)) with 0%nat by lia.
  reflexivity.
Qed.

Lemma mean_nil : Numpy.mean [] = nan.
Proof. reflexivity. Qed.

Lemma std_nil : Numpy.std [] = nan.
Proof. reflexivity. Qed.

(** X9. The constructor first builds the optimizer and fails with what
    [Adam] raises, a [ValueError] for a learning rate that is not [>= 0].
    Past that it fails, with the assertion of [EarlyStopping], exactly when
    early stopping is asked for with neither criterion. Without early
    stopping the two flags are not looked at and no stop checker is made;
    with it the stop checker is a new [EarlyStopping] with the arguments
    given. *)
Theorem trainer_init_outcome (model : Model) (data : Data)
    (lr weight_decay : float) (epochs niter : Z) (early_stopping : bool)
    (patience : Z) (use_loss use_acc save_model verbose : bool) :
  match init model data lr weight_decay epochs niter early_stopping patience
             use_loss use_acc save_model verbose with
  | Raise e =>
      Adam model lr weight_decay = Raise e
      \/ ((exists o, Adam model lr weight_decay = Ok o)
          /\ e = AssertionError "use loss or (and) acc"
          /\ early_stopping = true /\ use_loss = false /\ use_acc = false)
  | Ok self =>
      Adam model lr weight_decay = Ok (optimizer self)
      /\ (early_stopping = false \/ use_loss || use_acc = true)
      /\ well_formed self
      /\ Trainer.early_stopping self = early_stopping
      /\ stop_checker self
         = (if early_stopping
            then Some (EarlyStopping.mk patience use_loss use_acc save_model
                                        verbose 0 inf zero None)
            else None)
      /\ Trainer.model self = model
      /\ Trainer.data self = data_to_device data
  end
  /\ (le zero lr = false ->
      init model data lr weight_decay epochs niter early_stopping patience
           use_loss use_acc save_model verbose
      = Raise ValueError).
Proof.
  split.
  - unfold init, EarlyStopping.init, well_formed.
    destruct (Adam model lr weight_decay) as [o|e]; [|now left].
    destruct early_stopping; [destruct use_loss, use_acc|]; cbn;
      try (right; split; [now exists o | auto]);
      repeat split; auto; try discriminate; intros _; eauto.
  - intros Hlr. unfold init.
    now rewrite (Adam_learning_rate model lr weight_decay Hlr).
Qed.

(** X10. With [niter] zero or negative [run] makes no restart at all: it
    leaves the trainer as it is, calls nothing, and returns NaN for the
    three statistics (the mean and the deviation of an empty list). *)
Theorem run_without_restarts (s : machine) :
  niter (self s) <= 0 ->
  run s = (Ok (mkStats nan nan nan), s).
Proof.
  intros H. rewrite TrainerProperties.run_eq, range_nil by lia. reflexivity.
Qed.

(** X11. With [epochs] zero or negative a restart trains nothing: it
    resets and evaluates the re-initialised model once; that evaluation is
    the one the statistics use, unless it raises on an empty mask. *)
Theorem restart_without_epochs (s : machine) (o : Optimizer) :
  epochs (self s) <= 0 ->
  well_formed (self s) ->
  Adam (model (self s)) (lr (self s)) (weight_decay (self s)) = Ok o ->
  let fresh := after_reset (self s) in
  let model' := model_eval (model fresh) in
  model fresh = reset_parameters (model_to_device (model (self s)))
  /\ restart s
     = match outputs_of (forward model' (data fresh)) (data fresh) with
       | Ok outputs =>
           (Ok outputs,
            mkMachine (set_model model' fresh)
                      (trace s ++ [Reset; Evaluate outputs]))
       | Raise e =>
           (Raise e, mkMachine (set_model model' fresh) (trace s ++ [Reset]))
       end.
Proof.
  intros He Hwf Ho. cbn zeta. split.
  - unfold after_reset. rewrite Ho.
    destruct (early_stopping (self s)); [|reflexivity].
    destruct (stop_checker (self s)); reflexivity.
  - rewrite restart_eq. cbn zeta.
    assert (Hep : epochs (after_reset (self s)) = epochs (self s))
      by (destruct (keeps_after_reset (self s)) as (_&_&_&Hep&_); exact Hep).
    cbn [self]. rewrite Hep, range_nil by lia.
    rewrite reset_eq, Ho. cbn [fst].
    assert (Hok : (if early_stopping (self s)
                   then match stop_checker (self s) with
                        | Some _ => Ok tt
                        | None => Raise AttributeError
                        end
                   else Ok tt) = Ok tt).
    { destruct (early_stopping (self s)) eqn:E; [|reflexivity].
      destruct (Hwf E) as [sc ->]. reflexivity. }
    rewrite Hok. cbn [epoch_loop ret]. rewrite evaluate_eq.
    cbn [self trace].
    destruct (outputs_of _ _); [|reflexivity].
    now rewrite <- app_assoc.
Qed.

(** X12. However [run] ends, the trainer keeps its configuration: dataset,
    learning rate, weight decay, [epochs], [niter], the early-stopping flag
    and the configuration of the stop checker. *)
Theorem run_keeps_configuration (s : machine) :
  keeps (self s) (self (snd (run s))).
Proof.
  rewrite TrainerProperties.run_eq.
  destruct (restart_loop_shape (range 0 (niter (self s))) [] [] s)
    as (tr & counts & _ & Hk & _).
  cbn zeta in Hk.
  destruct (restart_loop _ _ _ s) as [[lists|e] s1]; exact Hk.
Qed.

(** *** Without early stopping *)

Lemma epoch_loop_plain (todo : list Z) : forall s : machine,
  early_stopping (self s) = false ->
  masks_not_empty (data (self s)) ->
  exists body s',
    epoch_loop todo s = (Ok tt, s')
    /\ trace s' = trace s ++ body
    /\ Forall (fun e => is_reset e = false) body
    /\ List.length (filter is_train body) = List.length todo
    /\ keeps (self s) (self s').
Proof.
  induction todo as [|epoch todo IH]; intros s He Hm.
  - exists [], s. cbn. rewrite app_nil_r.
    split; [reflexivity|]. split; [reflexivity|]. split; [constructor|].
    split; [reflexivity | apply keeps_refl].
  - rewrite epoch_loop_cons.
    destruct (train_shape s) as [Ht1 Hk1].
    set (s1 := snd (train s)) in *.
    destruct (evaluate_shape s1) as (Ht2 & Hk2' & Hret2 & _).
    assert (Hd1 : data (self s1) = data (self s))
      by (destruct Hk1 as (Hd & _); exact Hd).
    rewrite Hd1 in Hret2. clearbody s1.
    destruct (Hret2 Hm) as [evals Hev].
    destruct (evaluate s1) as [r s2]. cbn [fst snd] in *. subst r.
    cbn [ending] in Ht2.
    assert (Hk2 : keeps (self s) (self s2))
      by (eapply keeps_trans; eassumption).
    assert (He2 : early_stopping (self s2) = false)
      by (destruct Hk2 as (_&_&_&_&_&_&->&_); exact He).
    assert (Hm2 : masks_not_empty (data (self s2)))
      by (destruct Hk2 as (->&_); exact Hm).
    rewrite He2.
    destruct (IH s2 He2 Hm2) as (body & s' & Hrun & Ht & Hnr & Hlen & Hk).
    exists ([Train; Evaluate evals] ++ body), s'.
    split; [exact Hrun|]. rewrite Ht, Ht2, Ht1, <- !app_assoc.
    split; [reflexivity|]. split; [repeat constructor; exact Hnr|].
    split; [cbn; now rewrite Hlen|].
    eapply keeps_trans; eassumption.
Qed.

Lemma restart_loop_plain (todo : list Z) :
  forall (val_acc_list test_acc_list : list float) (s : machine),
  early_stopping (self s) = false ->
  usable (self s) ->
  exists lists s' tr,
    restart_loop todo val_acc_list test_acc_list s = (Ok lists, s')
    /\ trace s' = trace s ++ tr
    /\ forall n,
         trains_from n tr
         = close_count n
           ++ repeat (Z.to_nat (epochs (self s))) (List.length todo).
Proof.
  induction todo as [|i todo IH]; intros va ta s He Hu.
  - exists (va, ta), s, []. cbn. rewrite !app_nil_r.
    repeat split. intros n. now rewrite app_nil_r.
  - rewrite restart_loop_cons, restart_eq. cbn zeta.
    assert (Hwf : well_formed (self s))
      by (intros E; rewrite He in E; discriminate).
    rewrite (reset_returns s Hwf (proj2 Hu)).
    pose proof (keeps_after_reset (self s)) as Hk1.
    set (s1 := mkMachine (after_reset (self s)) (trace s ++ [Reset])) in *.
    assert (He1 : early_stopping (after_reset (self s)) = false)
      by (destruct Hk1 as (_&_&_&_&_&_&->&_); exact He).
    assert (Hep1 : epochs (after_reset (self s)) = epochs (self s))
      by (destruct Hk1 as (_&_&_&Hep&_); exact Hep).
    assert (Hm1 : masks_not_empty (data (after_reset (self s))))
      by (destruct Hk1 as (->&_); exact (proj1 Hu)).
    destruct (epoch_loop_plain (range 1 (epochs (self s1) + 1)) s1 He1 Hm1)
      as (body & s2 & Hrun & Ht2 & Hnr & Hlen & Hk2).
    rewrite range_length in Hlen. cbn [self s1] in Hlen. rewrite Hep1 in Hlen.
    replace (epochs (self s) + 1 - 1) with (epochs (self s)) in Hlen by lia.
    rewrite Hrun.
    assert (Hk02 : keeps (self s) (self s2))
      by (eapply keeps_trans; eassumption).
    destruct (evaluate_shape s2) as (Ht3 & Hk3 & Hret3 & _).
    assert (Hm2 : masks_not_empty (data (self s2)))
      by (destruct Hk02 as (->&_); exact (proj1 Hu)).
    destruct (Hret3 Hm2) as [f Hf].
    destruct (evaluate s2) as [r s3]. cbn [fst snd] in *. subst r.
    cbn [ending] in Ht3.
    assert (Hk03 : keeps (self s) (self s3))
      by (eapply keeps_trans; eassumption).
    assert (He3 : early_stopping (self s3) = false)
      by (destruct Hk03 as (_&_&_&_&_&_&->&_); exact He).
    assert (Hep3 : epochs (self s3) = epochs (self s))
      by (destruct Hk03 as (_&_&_&Hep&_); exact Hep).
    destruct (IH (va ++ [val_acc f]) (ta ++ [test_acc f]) s3 He3
                 (keeps_usable _ _ Hk03 Hu))
      as (lists & s' & tr & Hloop & Ht & Htr).
    exists lists, s', ((Reset :: body ++ [Evaluate f]) ++ tr).
    split; [exact Hloop|].
    split.
    { rewrite Ht, Ht3, Ht2. subst s1. cbn [trace].
      cbn [app]. rewrite <- !app_assoc. cbn [app]. reflexivity. }
    intros n. cbn [app trains_from List.length repeat].
    rewrite <- app_assoc. cbn [app].
    rewrite (trains_from_body body _ Hnr). cbn [trains_from].
    rewrite Htr, Hep3, Hlen. reflexivity.
Qed.

(** X13. With early stopping off, on a dataset with no empty mask and
    with hyperparameters the optimizer accepts, [run] returns, and every
    one of its [niter] restarts calls [train] exactly [epochs] times. *)
Theorem run_without_early_stopping (s : machine) :
  early_stopping (self s) = false ->
  usable (self s) ->
  exists stats s' tr,
    run s = (Ok stats, s')
    /\ trace s' = trace s ++ tr
    /\ trains tr
       = repeat (Z.to_nat (epochs (self s))) (Z.to_nat (niter (self s))).
Proof.
  intros He Hu. rewrite TrainerProperties.run_eq.
  destruct (restart_loop_plain (range 0 (niter (self s))) [] [] s He Hu)
    as (lists & s' & tr & Hloop & Ht & Htr).
  rewrite Hloop. rewrite range_length, Z.sub_0_r in Htr.
  eexists. exists s', tr. split; [reflexivity|]. split; [exact Ht|].
  unfold trains. now rewrite Htr.
Qed.

(** *** The ways to fail *)

Lemma failure_keeps (a b : t) (e : exn) :
  keeps a b -> failure_of b e -> failure_of a e.
Proof.
  unfold keeps, failure_of.
  intros (Hd & Hlr & Hwd & _ & _ & _ & Hes & Hsc) [H|[H|H]].
  - left. destruct H as (-> & Heb & sc & Hsome & Hsave).
    split; [reflexivity|]. split; [congruence|].
    rewrite Hsome in Hsc. destruct (stop_checker a) as [sc0|];
      [|contradiction].
    exists sc0. split; [reflexivity|].
    destruct Hsc as (_&_&_&Hs&_). congruence.
  - right. left. now rewrite <- Hd.
  - right. right. now rewrite <- Hlr, <- Hwd.
Qed.

Lemma stop_check_fails (evals : Evals) (epoch : Z) (s : machine) (e : exn) :
  well_formed (self s) -> early_stopping (self s) = true ->
  fst (stop_check evals epoch s) = Raise e -> failure_of (self s) e.
Proof.
  intros Hwf He. destruct (Hwf He) as [sc Hsc].
  rewrite stop_check_eq, Hsc. cbn [fst].
  rewrite EarlyStoppingFacts.check_result. cbn zeta.
  destruct (_ <=? _); [|discriminate].
  destruct (EarlyStopping.save_model sc) eqn:Hs; [|discriminate].
  destruct (EarlyStopping.state_dict _); [discriminate|].
  intros [= <-]. left. split; [reflexivity|]. split; [exact He|].
  exists sc. now split.
Qed.

Lemma evaluate_fails (s : machine) (e : exn) :
  fst (evaluate s) = Raise e -> failure_of (self s) e.
Proof.
  intros H. destruct (evaluate_shape s) as (_ & _ & _ & Hkind).
  right. left. now apply Hkind.
Qed.

Lemma epoch_loop_fails (todo : list Z) : forall (s : machine) (e : exn),
  well_formed (self s) ->
  fst (epoch_loop todo s) = Raise e -> failure_of (self s) e.
Proof.
  induction todo as [|epoch todo IH]; intros s e Hwf; [discriminate|].
  rewrite epoch_loop_cons.
  destruct (train_shape s) as [_ Hk1].
  set (s1 := snd (train s)) in *.
  destruct (evaluate_shape s1) as (_ & Hk2' & _).
  pose proof (evaluate_fails s1) as Hev. clearbody s1.
  destruct (evaluate s1) as [[evals|e'] s2]; cbn [fst snd] in *.
  - assert (Hk2 : keeps (self s) (self s2))
      by (eapply keeps_trans; eassumption).
    assert (Hwf2 : well_formed (self s2))
      by (eapply keeps_well_formed; eassumption).
    destruct (early_stopping (self s2)) eqn:He.
    + destruct (stop_check_frame evals epoch s2) as [_ Hk3].
      pose proof (stop_check_fails evals epoch s2) as Hkind.
      destruct (stop_check evals epoch s2) as [[[|]|e''] s3];
        cbn [fst snd] in *.
      * discriminate.
      * intros H. apply (failure_keeps _ (self s3)).
        -- eapply keeps_trans; eassumption.
        -- apply IH; [|exact H]. eapply keeps_well_formed; eassumption.
      * intros [= <-]. eapply failure_keeps; [exact Hk2|]. now apply Hkind.
    + intros H. eapply failure_keeps; [exact Hk2|]. now apply IH.
  - intros [= <-]. eapply failure_keeps; [exact Hk1|]. now apply Hev.
Qed.

Lemma restart_fails (s : machine) (e : exn) :
  well_formed (self s) -> fst (restart s) = Raise e -> failure_of (self s) e.
Proof.
  intros Hwf. rewrite restart_eq. cbn zeta. rewrite reset_eq. cbn [fst].
  pose proof (keeps_after_reset (self s)) as Hk1.
  set (s1 := mkMachine (after_reset (self s)) (trace s ++ [Reset])).
  destruct (Adam (model (self s)) (lr (self s)) (weight_decay (self s)))
    as [o|e'] eqn:Ho.
  - assert (Hok : (if early_stopping (self s)
                   then match stop_checker (self s) with
                        | Some _ => Ok tt
                        | None => Raise AttributeError
                        end
                   else Ok tt) = Ok tt).
    { destruct (early_stopping (self s)) eqn:E; [|reflexivity].
      destruct (Hwf E) as [sc ->]. reflexivity. }
    rewrite Hok.
    assert (Hwf1 : well_formed (self s1))
      by (eapply keeps_well_formed; [exact Hk1 | exact Hwf]).
    pose proof (epoch_loop_fails (range 1 (epochs (self s1) + 1)) s1) as Hkind.
    destruct (epoch_loop_shape (range 1 (epochs (self s1) + 1)) s1)
      as (_ & _ & _ & _ & Hk2 & _).
    destruct (epoch_loop _ s1) as [[[]|e''] s2]; cbn [fst snd] in *.
    + intros H. apply (failure_keeps _ (self s2)).
      * eapply keeps_trans; eassumption.
      * now apply evaluate_fails.
    + intros [= <-]. eapply failure_keeps; [exact Hk1|].
      now apply Hkind.
  - intros [= <-]. right. right. now exists (model (self s)).
Qed.

Lemma restart_loop_fails (todo : list Z) :
  forall (val_acc_list test_acc_list : list float) (s : machine) (e : exn),
  well_formed (self s) ->
  fst (restart_loop todo val_acc_list test_acc_list s) = Raise e ->
  failure_of (self s) e.
Proof.
  induction todo as [|i todo IH]; intros va ta s e Hwf; [discriminate|].
  rewrite restart_loop_cons.
  destruct (restart_shape s) as (_ & _ & _ & _ & Hk & _).
  pose proof (restart_fails s) as Hkind.
  destruct (restart s) as [[f|e'] s1]; cbn [fst snd] in *.
  - intros H. eapply failure_keeps; [exact Hk|].
    eapply IH; [|exact H]. eapply keeps_well_formed; eassumption.
  - intros [= <-]. now apply Hkind.
Qed.

(** X14. A trainer that has its stop checker whenever early stopping is on
    (every trainer the constructor builds) can fail in [run] in three ways
    only: a [check] call restores a checkpoint that was never saved (the
    [TypeError] of [load_state_dict(None)], with early stopping and
    [save_model] both on), an evaluation divides by the size of an empty
    mask ([ZeroDivisionError]), or the optimizer built by [reset] refuses
    the learning rate or the weight decay. *)
Theorem run_failures (s : machine) (e : exn) :
  well_formed (self s) ->
  fst (run s) = Raise e ->
  (e = TypeError
   /\ early_stopping (self s) = true
   /\ exists sc, stop_checker (self s) = Some sc
                 /\ EarlyStopping.save_model sc = true)
  \/ (e = ZeroDivisionError
      /\ exists key, mask_sum (data (self s)) key = 0)
  \/ (exists m, Adam m (lr (self s)) (weight_decay (self s)) = Raise e).
Proof.
  intros Hwf Hrun. rewrite TrainerProperties.run_eq in Hrun.
  pose proof (restart_loop_fails (range 0 (niter (self s))) [] [] s) as Hk.
  destruct (restart_loop _ _ _ s) as [[lists|e'] s1]; cbn [fst] in *;
    [discriminate|].
  injection Hrun as <-. now apply Hk.
Qed.

(** X18. However [run] ends, it has begun at most [niter] restarts and no
    restart has called [train] more than [epochs] times; when it returns,
    the restarts are exactly [niter]. *)
Theorem run_schedule_bounded (s : machine) :
  exists tr,
    trace (snd (run s)) = trace s ++ tr
    /\ (restarts tr <= Z.to_nat (niter (self s)))%nat
    /\ List.length (trains tr) = restarts tr
    /\ Forall (fun k => (k <= Z.to_nat (epochs (self s)))%nat) (trains tr)
    /\ (if returned (fst (run s))
        then restarts tr = Z.to_nat (niter (self s)) else True).
Proof.
  rewrite TrainerProperties.run_eq.
  destruct (restart_loop_shape (range 0 (niter (self s))) [] [] s)
    as (tr & counts & Ht & _ & Hre & Htr & Hlen & Hbd & Hfs & _).
  cbn zeta in *. rewrite range_length, Z.sub_0_r in Hre, Hfs.
  exists tr. unfold trains. rewrite Htr. cbn [close_count app].
  destruct (restart_loop _ _ _ s) as [[lists|e] s1]; cbn [fst snd returned] in *.
  - destruct (Hfs lists eq_refl) as (fs & _ & _ & _ & Hall & _). auto.
  - auto.
Qed.

End WithTorch.
End TrainerMore.

(** ** The further properties at concrete inputs *)

Module MoreRuns.
Import Trainer Trace Spec Calls.

Lemma check_raises_iff_witness :
  fst (fst (EarlyStopping.check (Toy.acc_stopper 1) (Toy.evals one zero)
                                (1, 1) 1))
  = Raise TypeError.
Proof.
  apply (EarlyStoppingMore.check_raises_iff (T := Toy.torch)).
  repeat split. vm_compute. discriminate.
Defined.

Lemma checkpoint_kept_no_raise_witness :
  Forall (fun r => returned r = true)
         (check_results (Toy.acc_stopper_seen 2) Toy.three_misses)
  /\ (EarlyStopping.state_dict (Toy.acc_stopper_seen 2) <> None ->
      EarlyStopping.state_dict
        (EarlyStopping.checks (Toy.acc_stopper_seen 2) Toy.three_misses)
      <> None).
Proof.
  apply (EarlyStoppingMore.checkpoint_kept_no_raise (T := Toy.torch)).
  right. discriminate.
Defined.

Lemma dual_mode_never_raises_witness :
  Forall (fun r => returned r = true)
         (check_results (Toy.dual_stopper 1)
            ((Toy.evals one one, (1, 1), 1) :: Toy.three_misses)).
Proof.
  apply (EarlyStoppingMore.dual_mode_never_raises (T := Toy.torch)
           1 false true);
    reflexivity.
Defined.

Lemma misses_only_count_witness :
  EarlyStopping.checks (Toy.acc_stopper_seen 2) Toy.three_misses
  = EarlyStopping.set_counter 3 (Toy.acc_stopper_seen 2).
Proof.
  apply (EarlyStoppingMore.misses_only_count (T := Toy.torch)
           (Toy.acc_stopper_seen 2) Toy.three_misses).
  - reflexivity.
  - repeat constructor.
Defined.

Lemma stop_after_patience_misses_witness :
  check_results (Toy.acc_stopper_seen 2) Toy.three_misses
  = [Ok false; Ok true; Ok true].
Proof.
  apply (EarlyStoppingMore.stop_after_patience_misses (T := Toy.torch)
           (Toy.acc_stopper_seen 2) Toy.three_misses).
  - reflexivity.
  - right. discriminate.
  - repeat constructor.
Defined.

Lemma improvement_goes_on_witness :
  EarlyStopping.counter
    (EarlyStopping.update (Toy.acc_stopper 2) (Toy.evals one one) (1, 1)) = 0
  /\ EarlyStopping.check (Toy.acc_stopper 2) (Toy.evals one one) (1, 1) 1
     = (Ok false, Toy.acc_stopper_seen 2, (1, 1)).
Proof.
  destruct (EarlyStoppingMore.improvement_goes_on (T := Toy.torch)
              (Toy.acc_stopper 2) (Toy.evals one one) (1, 1) 1
              eq_refl eq_refl) as [Hcounter Hcheck].
  split; [exact Hcounter|]. apply Hcheck. reflexivity.
Defined.

Lemma no_save_model_no_restore_witness :
  snd (EarlyStopping.check (Toy.loss_stopper 0) (Toy.evals one one) (1, 1) 1)
  = (1, 1)
  /\ EarlyStopping.state_dict
       (EarlyStopping.checks (Toy.loss_stopper 0) Toy.three_misses)
     = None.
Proof.
  apply (EarlyStoppingMore.no_save_model_no_restore (T := Toy.torch)
           (Toy.loss_stopper 0)).
  reflexivity.
Defined.

Lemma unused_criterion_untouched_witness :
  EarlyStopping.best_val_acc
    (EarlyStopping.checks (Toy.loss_stopper 1) Toy.two_calls) = zero
  /\ EarlyStopping.best_val_loss
       (EarlyStopping.checks (Toy.acc_stopper 1) Toy.two_calls) = inf.
Proof.
  split.
  - apply (proj1 (EarlyStoppingMore.unused_criterion_untouched
                    (T := Toy.torch) (Toy.loss_stopper 1) Toy.two_calls)).
    reflexivity.
  - apply (proj2 (EarlyStoppingMore.unused_criterion_untouched
                    (T := Toy.torch) (Toy.acc_stopper 1) Toy.two_calls)).
    reflexivity.
Defined.

Lemma counter_within_calls_witness :
  0 <= EarlyStopping.counter
         (EarlyStopping.checks (Toy.acc_stopper 1) Toy.three_misses)
    <= 3.
Proof.
  apply (EarlyStoppingMore.counter_within_calls (T := Toy.torch)
           1 false false true true (Toy.acc_stopper 1) Toy.three_misses).
  reflexivity.
Defined.

Lemma check_stops_iff_witness :
  exists stop,
    fst (fst (EarlyStopping.check (Toy.acc_stopper_seen 1)
                (Toy.evals one zero) (1, 2) 2)) = Ok stop
    /\ (stop = true
        <-> EarlyStopping.patience (Toy.acc_stopper_seen 1)
            <= EarlyStopping.counter
                 (snd (fst (EarlyStopping.check (Toy.acc_stopper_seen 1)
                              (Toy.evals one zero) (1, 2) 2)))).
Proof.
  apply (EarlyStoppingMore.check_stops_iff (T := Toy.torch)
           (Toy.acc_stopper_seen 1) (Toy.evals one zero) (1, 2) 2).
  right. discriminate.
Defined.

Lemma no_patience_always_stops_witness :
  Forall (fun r => r = Ok true)
         (check_results (Toy.loss_stopper 0) Toy.three_misses).
Proof.
  apply (EarlyStoppingMore.no_patience_always_stops (T := Toy.torch)
           0 false true false (Toy.loss_stopper 0) Toy.three_misses).
  - reflexivity.
  - lia.
Defined.

Lemma run_without_restarts_witness :
  Trainer.run (Toy.machine 1 3 0 10 true false false)
  = (Ok (mkStats nan nan nan), Toy.machine 1 3 0 10 true false false).
Proof.
  apply (TrainerMore.run_without_restarts (T := Toy.torch)). cbn. lia.
Defined.

Lemma trainer_init_outcome_witness :
  Trainer.init (T := Toy.torch) (0, 0) 1 (SFopp half) zero 1 2 true 10
               true false false false
  = Raise ValueError.
Proof.
  apply (proj2 (TrainerMore.trainer_init_outcome (T := Toy.torch)
                  (0, 0) 1 (SFopp half) zero 1 2 true 10
                  true false false false)).
  reflexivity.
Defined.

Lemma restart_without_epochs_witness :
  model (after_reset (Toy.trainer 1 0 2 10 true false false)) = (1, 0)
  /\ exists outputs : Evals,
       Trainer.restart (Toy.machine 1 0 2 10 true false false)
       = (Ok outputs,
          mkMachine
            (set_model (T := Toy.torch) (1, 0)
               (after_reset (Toy.trainer 1 0 2 10 true false false)))
            [Reset; Evaluate outputs]).
Proof.
  destruct (TrainerMore.restart_without_epochs (T := Toy.torch)
              (Toy.machine 1 0 2 10 true false false) tt)
    as [Hmodel Hrestart].
  - cbn. lia.
  - apply Runs.toy_well_formed.
  - reflexivity.
  - split; [exact Hmodel|]. eexists. exact Hrestart.
Defined.

Lemma toy_plain_usable d epochs niter :
  usable (Toy.plain_trainer d epochs niter).
Proof.
  split.
  - intros key. cbn. discriminate.
  - intros m. exists tt. reflexivity.
Qed.

Lemma run_without_early_stopping_witness :
  exists stats s' tr,
    Trainer.run (Toy.plain_machine 1 3 2) = (Ok stats, s')
    /\ trace s' = tr
    /\ trains tr = [3%nat; 3%nat].
Proof.
  apply (TrainerMore.run_without_early_stopping (T := Toy.torch)
           (Toy.plain_machine 1 3 2)).
  - reflexivity.
  - apply toy_plain_usable.
Defined.

Lemma run_failures_witness :
  (TypeError = TypeError
   /\ early_stopping (Toy.trainer 0 3 2 1 false true true) = true
   /\ exists sc,
        stop_checker (Toy.trainer 0 3 2 1 false true true) = Some sc
        /\ EarlyStopping.save_model sc = true)
  \/ (TypeError = ZeroDivisionError
      /\ exists key,
           mask_sum (data (Toy.trainer 0 3 2 1 false true true)) key = 0)
  \/ (exists m,
        Adam (Torch := Toy.torch) m
             (lr (Toy.trainer 0 3 2 1 false true true))
             (weight_decay (Toy.trainer 0 3 2 1 false true true))
        = Raise TypeError).
Proof.
  apply (TrainerMore.run_failures (T := Toy.torch)
           (Toy.machine 0 3 2 1 false true true) TypeError).
  - apply Runs.toy_well_formed.
  - vm_compute. reflexivity.
Defined.

End MoreRuns.
